(** * lunix-monitor: the polling dashboard of the Lunix:TNG sensors

    A shallow embedding of [lunix-monitor.c].  The program keeps a global
    array of sixteen [sensor_data] records, polls the three character
    devices of every sensor with non-blocking reads, and redraws an ncurses
    table ten times a second until the operator presses [q].

    - C arrays are lists; every access is checked against the length of the
      array and an access outside it is a fault ([None]).
    - The program runs in a small monad: a computation either faults or
      returns a value together with the system and curses calls it made.
    - The operating system is a record of answers: what [open] returns for a
      path, what a [read] on a descriptor delivers during a given cycle of the
      main loop, which key [getch] reports in that cycle. *)

From Stdlib Require Import List ZArith Lia Bool Arith String Ascii DecimalString.
Import ListNotations.

(** ** Constants of the program *)

Definition MAX_SENSORS : nat := 16.
Definition BUF_SIZE : nat := 32.

Definition NUL : ascii := Ascii.zero.
Definition LF : ascii := "010"%char.

Definition is_nul (c : ascii) : bool := Ascii.eqb c NUL.
Definition is_lf (c : ascii) : bool := Ascii.eqb c LF.

(** ** Calls observed from outside *)

Inductive color := COLOR_BLACK | COLOR_RED | COLOR_GREEN | COLOR_YELLOW | COLOR_CYAN.

Inductive attr := COLOR_PAIR (n : nat) | A_BOLD | A_DIM | A_UNDERLINE.

Inductive event :=
| Initscr
| Cbreak
| Noecho
| Nodelay (on : bool)
| CursSet (visibility : nat)
| HasColors (answer : bool)
| StartColor
| InitPair (pair : nat) (fg bg : color)
| Getch (ch : Z)
| Open (path : string) (fd : Z)
| Read (fd : Z) (count : nat) (bytes : Z)
| Erase
| Attron (a : list attr)
| Attroff (a : list attr)
| Mvprintw (row col : nat) (text : string)
| Refresh
| Usleep (usec : Z)
| Close (fd : Z)
| Endwin.

(** ** The monad: fault, or a value and the calls made *)

Definition M (A : Type) : Type := option (A * list event).

Definition ret {A} (a : A) : M A := Some (a, []).

Definition bind {A B} (m : M A) (f : A -> M B) : M B :=
  match m with
  | None => None
  | Some (a, t1) =>
      match f a with
      | None => None
      | Some (b, t2) => Some (b, t1 ++ t2)
      end
  end.

Definition call (e : event) : M unit := Some (tt, [e]).

Definition lift {A} (o : option A) : M A :=
  match o with
  | Some a => ret a
  | None => None
  end.

Declare Scope monad_scope.
Delimit Scope monad_scope with monad.
Notation "x <- m ;; k" := (bind m (fun x => k))
  (at level 61, m at next level, right associativity) : monad_scope.
Notation "m ;;; k" := (bind m (fun _ => k))
  (at level 61, right associativity) : monad_scope.
Local Open Scope monad_scope.

(** [for (i = lo; i < lo + n; i++) body] over a state [s]. *)
Fixpoint for_loop {St} (i n : nat) (body : nat -> St -> M St) (s : St) : M St :=
  match n with
  | 0 => ret s
  | S n' => s' <- body i s ;; for_loop (S i) n' body s'
  end.

(** ** C arrays and the string routines the program calls *)

Definition load {A} (a : list A) (i : nat) : option A := nth_error a i.

Fixpoint store {A} (a : list A) (i : nat) (x : A) : option (list A) :=
  match a, i with
  | [], _ => None
  | _ :: a', 0 => Some (x :: a')
  | y :: a', S i' => option_map (cons y) (store a' i' x)
  end.

(** [strchr(s, c)]: the index of the first [c] of the string, [NULL] when
    the terminator comes first; running off the array is a fault. *)
Fixpoint strchr_from (s : list ascii) (i : nat) (c : ascii) : option (option nat) :=
  match s with
  | [] => None
  | x :: s' =>
      if Ascii.eqb x c then Some (Some i)
      else if is_nul x then Some None
      else strchr_from s' (S i) c
  end.

Definition strchr (s : list ascii) (c : ascii) : option (option nat) :=
  strchr_from s 0 c.

Fixpoint memset_nul (dst : list ascii) (n : nat) {struct n} : option (list ascii) :=
  match n with
  | 0 => Some dst
  | S n' =>
      match dst with
      | [] => None
      | _ :: dst' => option_map (cons NUL) (memset_nul dst' n')
      end
  end.

(** [strncpy(dst, src, n)]: copies the string, then fills up to [n] bytes
    with NUL; exactly [n] bytes of [dst] are written. *)
Fixpoint strncpy (dst src : list ascii) (n : nat) {struct n}
  : option (list ascii) :=
  match n with
  | 0 => Some dst
  | S n' =>
      match src with
      | [] => None
      | c :: src' =>
          if is_nul c then memset_nul dst (S n')
          else
            match dst with
            | [] => None
            | _ :: dst' => option_map (cons c) (strncpy dst' src' n')
            end
      end
  end.

(** The string held by a char array, as [printf("%s")] reads it: the bytes
    before the first NUL; an array without terminator is a fault. *)
Fixpoint c_chars (a : list ascii) : option (list ascii) :=
  match a with
  | [] => None
  | c :: a' => if is_nul c then Some [] else option_map (cons c) (c_chars a')
  end.

Definition c_str (a : list ascii) : option string :=
  option_map string_of_list_ascii (c_chars a).

(** ** The operating system *)

(** What one [read] on a device delivers: an error ([-1], for instance
    EAGAIN when nothing is ready), or the bytes the device has; no bytes is
    an end of stream and [read] returns 0. *)
Inductive response :=
| RError
| RData (payload : list ascii).

Record read_env := {
  garbage : nat -> ascii;   (* what the stack holds where temp_buf is put *)
  answer : response
}.

Record os := {
  os_open : string -> Z;              (* open(path, O_RDONLY | O_NONBLOCK) *)
  os_read : nat -> Z -> read_env;     (* a read on fd during cycle k *)
  os_getch : nat -> Z;                (* the key getch reports in cycle k *)
  os_has_colors : bool
}.

(** A local array that was not initialised. *)
Definition local_array (g : nat -> ascii) (size : nat) : list ascii :=
  map g (seq 0 size).

(** [read(fd, buf, count)]: at most [count] bytes are written at the start
    of [buf]; the number of bytes is returned. *)
Definition sys_read (r : response) (fd : Z) (buf : list ascii) (count : nat)
  : M (Z * list ascii) :=
  match r with
  | RError => call (Read fd count (-1)) ;;; ret ((-1)%Z, buf)
  | RData payload =>
      let d := firstn count payload in
      if List.length d <=? List.length buf then
        call (Read fd count (Z.of_nat (List.length d))) ;;;
        ret (Z.of_nat (List.length d), d ++ skipn (List.length d) buf)
      else None
  end.

(** ** try_read *)

Definition try_read (env : read_env) (fd : Z) (buffer : list ascii)
  : M (Z * list ascii) :=
  if (fd <? 0)%Z then ret (0%Z, buffer) else
  let temp_buf := local_array (garbage env) BUF_SIZE in
  r <- sys_read (answer env) fd temp_buf (BUF_SIZE - 1) ;;
  let '(bytes, temp_buf) := r in
  if (bytes >? 0)%Z then
    temp_buf <- lift (store temp_buf (Z.to_nat bytes) NUL) ;;
    newline <- lift (strchr temp_buf LF) ;;
    temp_buf <- match newline with
                | Some p => lift (store temp_buf p NUL)
                | None => ret temp_buf
                end ;;
    buffer <- lift (strncpy buffer temp_buf BUF_SIZE) ;;
    ret (1%Z, buffer)
  else ret (0%Z, buffer).

(** ** printf *)

Definition spaces (n : nat) : string := string_of_list_ascii (repeat " "%char n).
Definition zeros (n : nat) : string := string_of_list_ascii (repeat "0"%char n).

(** [%-ws]: left-aligned in a field of at least [w] characters. *)
Definition fmt_left (w : nat) (s : string) : string :=
  (s ++ spaces (w - String.length s))%string.

(** [%d] of a value that is not negative. *)
Definition fmt_d (n : nat) : string := NilZero.string_of_uint (Nat.to_uint n).

(** [%0wd] of a value that is not negative. *)
Definition fmt_0d (w n : nat) : string :=
  (zeros (w - String.length (fmt_d n)) ++ fmt_d n)%string.

(** [snprintf(dst, size, ...)] keeps at most [size - 1] characters. *)
Definition snprintf (size : nat) (s : string) : string := substring 0 (size - 1) s.

(** The field widths of the table: ["%-8s  %-12s  %-12s  %-12s"]. *)
Definition ID_WIDTH : nat := 8.
Definition VALUE_WIDTH : nat := 12.

(** ["%-12s  %-12s  %-12s"] *)
Definition fmt_values (a b c : string) : string :=
  (fmt_left VALUE_WIDTH a ++ "  " ++ fmt_left VALUE_WIDTH b ++ "  "
     ++ fmt_left VALUE_WIDTH c)%string.

(** ["%-8s  %-12s  %-12s  %-12s"] *)
Definition fmt_header (id a b c : string) : string :=
  (fmt_left ID_WIDTH id ++ "  " ++ fmt_values a b c)%string.

(** ** The sensors *)

Record sensor_data := {
  fd_batt : Z;
  fd_temp : Z;
  fd_light : Z;
  val_batt : list ascii;
  val_temp : list ascii;
  val_light : list ascii
}.

(** The global array, zeroed as every object of static storage is. *)
Definition sensors_bss : list sensor_data :=
  repeat {| fd_batt := 0; fd_temp := 0; fd_light := 0;
            val_batt := repeat NUL BUF_SIZE;
            val_temp := repeat NUL BUF_SIZE;
            val_light := repeat NUL BUF_SIZE |} MAX_SENSORS.

Inductive metric := Batt | Temp | Light.

Definition fd_of (m : metric) (s : sensor_data) : Z :=
  match m with Batt => fd_batt s | Temp => fd_temp s | Light => fd_light s end.

Definition val_of (m : metric) (s : sensor_data) : list ascii :=
  match m with Batt => val_batt s | Temp => val_temp s | Light => val_light s end.

Definition set_val (m : metric) (v : list ascii) (s : sensor_data) : sensor_data :=
  match m with
  | Batt => {| fd_batt := fd_batt s; fd_temp := fd_temp s; fd_light := fd_light s;
               val_batt := v; val_temp := val_temp s; val_light := val_light s |}
  | Temp => {| fd_batt := fd_batt s; fd_temp := fd_temp s; fd_light := fd_light s;
               val_batt := val_batt s; val_temp := v; val_light := val_light s |}
  | Light => {| fd_batt := fd_batt s; fd_temp := fd_temp s; fd_light := fd_light s;
                val_batt := val_batt s; val_temp := val_temp s; val_light := v |}
  end.

(** ** open_sensor_dev *)

Definition open_sensor_dev (w : os) (sensor_id : nat) (type : string) : M Z :=
  let path := snprintf 64 ("/dev/lunix" ++ fmt_d sensor_id ++ "-" ++ type)%string in
  let fd := os_open w path in
  call (Open path fd) ;;; ret fd.

(** ** init_colors *)

Definition init_colors (w : os) : M unit :=
  call (HasColors (os_has_colors w)) ;;;
  if os_has_colors w then
    call StartColor ;;;
    call (InitPair 1 COLOR_CYAN COLOR_BLACK) ;;;
    call (InitPair 2 COLOR_GREEN COLOR_BLACK) ;;;
    call (InitPair 3 COLOR_YELLOW COLOR_BLACK) ;;;
    call (InitPair 4 COLOR_RED COLOR_BLACK)
  else ret tt.

(** ** main: opening the devices *)

Definition open_sensor (w : os) (i : nat) (sensors : list sensor_data)
  : M (list sensor_data) :=
  s <- lift (load sensors i) ;;
  vb <- lift (store (val_batt s) 0 NUL) ;;
  vt <- lift (store (val_temp s) 0 NUL) ;;
  vl <- lift (store (val_light s) 0 NUL) ;;
  fb <- open_sensor_dev w i "batt" ;;
  ft <- open_sensor_dev w i "temp" ;;
  fl <- open_sensor_dev w i "light" ;;
  lift (store sensors i
          {| fd_batt := fb; fd_temp := ft; fd_light := fl;
             val_batt := vb; val_temp := vt; val_light := vl |}).

Definition open_all (w : os) (sensors : list sensor_data) : M (list sensor_data) :=
  for_loop 0 MAX_SENSORS (open_sensor w) sensors.

(** ** main: polling *)

(** One statement [try_read(sensors[i].fd_m, sensors[i].val_m)] of cycle
    [k]: the buffer the callee writes is the field of the global array. *)
Definition poll_channel (w : os) (k : nat) (m : metric) (i : nat)
  (sensors : list sensor_data) : M (Z * list sensor_data) :=
  s <- lift (load sensors i) ;;
  r <- try_read (os_read w k (fd_of m s)) (fd_of m s) (val_of m s) ;;
  sensors' <- lift (store sensors i (set_val m (snd r) s)) ;;
  ret (fst r, sensors').

Definition poll_sensor (w : os) (k : nat) (i : nat) (sensors : list sensor_data)
  : M (list sensor_data) :=
  r <- poll_channel w k Batt i sensors ;;
  r <- poll_channel w k Temp i (snd r) ;;
  r <- poll_channel w k Light i (snd r) ;;
  ret (snd r).

Definition poll_all (w : os) (k : nat) (sensors : list sensor_data)
  : M (list sensor_data) :=
  for_loop 0 MAX_SENSORS (poll_sensor w k) sensors.

(** ** main: drawing *)

(** The test [sensors[i].fd_batt < 0 || sensors[i].val_batt[0] == 0]. *)
Definition is_offline (s : sensor_data) : option bool :=
  if (fd_batt s <? 0)%Z then Some true
  else option_map is_nul (load (val_batt s) 0).

Definition draw_values (row : nat) (s : sensor_data) : M unit :=
  off <- lift (is_offline s) ;;
  if off : bool then
    call (Attron [COLOR_PAIR 4]) ;;;
    call (Mvprintw row 12 (fmt_values "OFFLINE" "OFFLINE" "OFFLINE")) ;;;
    call (Attroff [COLOR_PAIR 4])
  else
    call (Attron [COLOR_PAIR 2]) ;;;
    b <- lift (c_str (val_batt s)) ;;
    t <- lift (c_str (val_temp s)) ;;
    l <- lift (c_str (val_light s)) ;;
    call (Mvprintw row 12 (fmt_values b t l)) ;;;
    call (Attroff [COLOR_PAIR 2]).

Definition draw_row (sensors : list sensor_data) (i : nat) (_ : unit) : M unit :=
  let row := 5 + i in
  call (Attron [COLOR_PAIR 3]) ;;;
  call (Mvprintw row 2 ("Sensor " ++ fmt_0d 2 i)%string) ;;;
  call (Attroff [COLOR_PAIR 3]) ;;;
  s <- lift (load sensors i) ;;
  draw_values row s.

Definition draw_ui (sensors : list sensor_data) : M unit :=
  call Erase ;;;
  call (Attron [COLOR_PAIR 1; A_BOLD]) ;;;
  call (Mvprintw 0 2 "Lunix:TNG Sensor Monitor (Press 'q' to quit)") ;;;
  call (Attroff [COLOR_PAIR 1; A_BOLD]) ;;;
  call (Attron [A_DIM]) ;;;
  call (Mvprintw 1 2 "[This version uses Polling - It does not support Wait-Wake]") ;;;
  call (Attroff [A_DIM]) ;;;
  call (Attron [A_UNDERLINE]) ;;;
  call (Mvprintw 3 2 (fmt_header "ID" "Battery(V)" "Temp(C)" "Light")) ;;;
  call (Attroff [A_UNDERLINE]) ;;;
  for_loop 0 MAX_SENSORS (draw_row sensors) tt ;;;
  call (Mvprintw (5 + MAX_SENSORS + 1) 2 "Status: Active Polling (O_NONBLOCK)...") ;;;
  call Refresh.

(** ** main: the loop and the cleanup *)

Inductive run_state := Running | Stopped.

Definition is_quit (ch : Z) : bool := (ch =? 113)%Z || (ch =? 81)%Z.

(** [while (1)], observed for [fuel] cycles starting with cycle [k]. *)
Fixpoint main_loop (w : os) (fuel k : nat) (sensors : list sensor_data)
  : M (run_state * list sensor_data) :=
  match fuel with
  | 0 => ret (Running, sensors)
  | S fuel' =>
      let ch := os_getch w k in
      call (Getch ch) ;;;
      if is_quit ch then ret (Stopped, sensors) else
      sensors <- poll_all w k sensors ;;
      draw_ui sensors ;;;
      call (Usleep 100000%Z) ;;;
      main_loop w fuel' (S k) sensors
  end.

Definition close_if_open (fd : Z) : M unit :=
  if (fd >=? 0)%Z then call (Close fd) else ret tt.

Definition close_sensor (sensors : list sensor_data) (i : nat) (_ : unit) : M unit :=
  s <- lift (load sensors i) ;;
  close_if_open (fd_batt s) ;;;
  close_if_open (fd_temp s) ;;;
  close_if_open (fd_light s).

Definition cleanup (sensors : list sensor_data) : M unit :=
  for_loop 0 MAX_SENSORS (close_sensor sensors) tt ;;;
  call Endwin.

Definition startup (w : os) : M (list sensor_data) :=
  call Initscr ;;;
  call Cbreak ;;;
  call Noecho ;;;
  call (Nodelay true) ;;;
  call (CursSet 0) ;;;
  init_colors w ;;;
  open_all w sensors_bss.

(** The program, observed for [fuel] cycles of its loop.  [Stopped] means the
    loop was left, the descriptors were closed and [main] returned 0;
    [Running] means the loop is still going after [fuel] cycles. *)
Definition main (w : os) (fuel : nat) : M (run_state * list sensor_data) :=
  sensors <- startup w ;;
  r <- main_loop w fuel 0 sensors ;;
  match fst r with
  | Stopped => cleanup (snd r) ;;; ret r
  | Running => ret r
  end.

(** ** What the code computes, in closed form *)

(** The bytes of [d] before the first NUL or line-break. *)
Fixpoint line_text (d : list ascii) : list ascii :=
  match d with
  | [] => []
  | c :: d' => if is_nul c || is_lf c then [] else c :: line_text d'
  end.

(** The bytes a [read] of [BUF_SIZE - 1] bytes hands over, and its result. *)
Definition delivered (r : response) : list ascii :=
  match r with
  | RError => []
  | RData payload => firstn (BUF_SIZE - 1) payload
  end.

Definition read_result (r : response) : Z :=
  match r with
  | RError => (-1)%Z
  | RData _ => Z.of_nat (List.length (delivered r))
  end.

(** The whole buffer after a read that delivered [d]. *)
Definition stored (d : list ascii) : list ascii :=
  line_text d ++ repeat NUL (BUF_SIZE - List.length (line_text d)).

Definition next_value (env : read_env) (fd : Z) (buffer : list ascii) : list ascii :=
  if (fd <? 0)%Z then buffer
  else if (read_result (answer env) >? 0)%Z then stored (delivered (answer env))
  else buffer.

Definition next_result (env : read_env) (fd : Z) : Z :=
  if (fd <? 0)%Z then 0%Z
  else if (read_result (answer env) >? 0)%Z then 1%Z else 0%Z.

Definition read_calls (env : read_env) (fd : Z) : list event :=
  if (fd <? 0)%Z then []
  else [Read fd (BUF_SIZE - 1) (read_result (answer env))].

(** A sensor after the three reads of cycle [k]. *)
Definition polled (w : os) (k : nat) (s : sensor_data) : sensor_data :=
  {| fd_batt := fd_batt s; fd_temp := fd_temp s; fd_light := fd_light s;
     val_batt := next_value (os_read w k (fd_batt s)) (fd_batt s) (val_batt s);
     val_temp := next_value (os_read w k (fd_temp s)) (fd_temp s) (val_temp s);
     val_light := next_value (os_read w k (fd_light s)) (fd_light s) (val_light s) |}.

Definition poll_calls (w : os) (k : nat) (s : sensor_data) : list event :=
  read_calls (os_read w k (fd_batt s)) (fd_batt s)
  ++ read_calls (os_read w k (fd_temp s)) (fd_temp s)
  ++ read_calls (os_read w k (fd_light s)) (fd_light s).

Fixpoint mapi {A B} (i : nat) (f : nat -> A -> B) (l : list A) : list B :=
  match l with
  | [] => []
  | x :: l' => f i x :: mapi (S i) f l'
  end.

(** ** The state the program maintains *)

(** A byte that is neither the terminator nor a line-break. *)
Definition clean (c : ascii) : Prop := is_nul c = false /\ is_lf c = false.

Definition sized (s : sensor_data) : Prop :=
  List.length (val_batt s) = BUF_SIZE /\
  List.length (val_temp s) = BUF_SIZE /\
  List.length (val_light s) = BUF_SIZE.

(** A buffer holds a string: [BUF_SIZE] bytes with a NUL among them. *)
Definition holds_string (b : list ascii) : Prop :=
  List.length b = BUF_SIZE /\
  exists t, c_chars b = Some t /\ List.length t <= BUF_SIZE - 1.

Definition sane (s : sensor_data) : Prop :=
  holds_string (val_batt s) /\ holds_string (val_temp s) /\ holds_string (val_light s).

Definition sane_all (sensors : list sensor_data) : Prop :=
  List.length sensors = MAX_SENSORS /\ Forall sane sensors.

(** ** Startup in closed form *)

Definition dev_path (sensor_id : nat) (type : string) : string :=
  snprintf 64 ("/dev/lunix" ++ fmt_d sensor_id ++ "-" ++ type)%string.

Definition opened_sensor (w : os) (i : nat) : sensor_data :=
  {| fd_batt := os_open w (dev_path i "batt");
     fd_temp := os_open w (dev_path i "temp");
     fd_light := os_open w (dev_path i "light");
     val_batt := repeat NUL BUF_SIZE;
     val_temp := repeat NUL BUF_SIZE;
     val_light := repeat NUL BUF_SIZE |}.

Definition opened (w : os) : list sensor_data :=
  map (opened_sensor w) (seq 0 MAX_SENSORS).

Definition open_calls (w : os) (i : nat) : list event :=
  [Open (dev_path i "batt") (os_open w (dev_path i "batt"));
   Open (dev_path i "temp") (os_open w (dev_path i "temp"));
   Open (dev_path i "light") (os_open w (dev_path i "light"))].

Definition curses_calls (w : os) : list event :=
  [Initscr; Cbreak; Noecho; Nodelay true; CursSet 0; HasColors (os_has_colors w)]
  ++ (if os_has_colors w then
        [StartColor; InitPair 1 COLOR_CYAN COLOR_BLACK;
         InitPair 2 COLOR_GREEN COLOR_BLACK;
         InitPair 3 COLOR_YELLOW COLOR_BLACK;
         InitPair 4 COLOR_RED COLOR_BLACK]
      else []).

Definition startup_calls (w : os) : list event :=
  curses_calls w ++ flat_map (open_calls w) (seq 0 MAX_SENSORS).

(** ** A frame in closed form *)

Fixpoint until_nul (a : list ascii) : list ascii :=
  match a with
  | [] => []
  | c :: a' => if is_nul c then [] else c :: until_nul a'
  end.

(** The text of a buffer. *)
Definition shown (a : list ascii) : string := string_of_list_ascii (until_nul a).

Definition offline (s : sensor_data) : bool :=
  (fd_batt s <? 0)%Z || is_nul (hd NUL (val_batt s)).

Definition id_label (i : nat) : string := ("Sensor " ++ fmt_0d 2 i)%string.

Definition OFFLINE_VALUES : string := fmt_values "OFFLINE" "OFFLINE" "OFFLINE".

Definition values_text (s : sensor_data) : string :=
  if offline s then OFFLINE_VALUES
  else fmt_values (shown (val_batt s)) (shown (val_temp s)) (shown (val_light s)).

Definition values_pair (s : sensor_data) : nat := if offline s then 4 else 2.

Definition row_calls (i : nat) (s : sensor_data) : list event :=
  [Attron [COLOR_PAIR 3]; Mvprintw (5 + i) 2 (id_label i); Attroff [COLOR_PAIR 3];
   Attron [COLOR_PAIR (values_pair s)];
   Mvprintw (5 + i) 12 (values_text s);
   Attroff [COLOR_PAIR (values_pair s)]].

Definition HEADER : string := fmt_header "ID" "Battery(V)" "Temp(C)" "Light".

Definition frame_head : list event :=
  [Erase;
   Attron [COLOR_PAIR 1; A_BOLD];
   Mvprintw 0 2 "Lunix:TNG Sensor Monitor (Press 'q' to quit)";
   Attroff [COLOR_PAIR 1; A_BOLD];
   Attron [A_DIM];
   Mvprintw 1 2 "[This version uses Polling - It does not support Wait-Wake]";
   Attroff [A_DIM];
   Attron [A_UNDERLINE];
   Mvprintw 3 2 HEADER;
   Attroff [A_UNDERLINE]].

Definition frame_foot : list event :=
  [Mvprintw (5 + MAX_SENSORS + 1) 2 "Status: Active Polling (O_NONBLOCK)...";
   Refresh].

(** The calls on behalf of [sensors[i]], none when [i] is outside the array. *)
Definition at_index {A} (g : nat -> sensor_data -> list A)
  (sensors : list sensor_data) (i : nat) : list A :=
  match nth_error sensors i with
  | Some s => g i s
  | None => []
  end.

Definition frame (sensors : list sensor_data) : list event :=
  frame_head ++ flat_map (at_index row_calls sensors) (seq 0 MAX_SENSORS)
  ++ frame_foot.

(** ** The cleanup in closed form *)

Definition close_calls (fd : Z) : list event :=
  if (fd >=? 0)%Z then [Close fd] else [].

Definition sensor_close_calls (s : sensor_data) : list event :=
  close_calls (fd_batt s) ++ close_calls (fd_temp s) ++ close_calls (fd_light s).

Definition cleanup_calls (sensors : list sensor_data) : list event :=
  flat_map (at_index (fun _ => sensor_close_calls) sensors) (seq 0 MAX_SENSORS)
  ++ [Endwin].

(** ** The loop in closed form *)

Definition cycle_calls (w : os) (k : nat) (sensors : list sensor_data) : list event :=
  Getch (os_getch w k) :: flat_map (poll_calls w k) sensors
  ++ frame (map (polled w k) sensors) ++ [Usleep 100000%Z].

Fixpoint run (w : os) (fuel k : nat) (sensors : list sensor_data)
  : (run_state * list sensor_data) * list event :=
  match fuel with
  | 0 => ((Running, sensors), [])
  | S fuel' =>
      if is_quit (os_getch w k) then ((Stopped, sensors), [Getch (os_getch w k)])
      else
        let r := run w fuel' (S k) (map (polled w k) sensors) in
        (fst r, cycle_calls w k sensors ++ snd r)
  end.

Definition main_run (w : os) (fuel : nat)
  : (run_state * list sensor_data) * list event :=
  let r := run w fuel 0 (opened w) in
  (fst r,
   startup_calls w ++ snd r ++
   match fst (fst r) with
   | Stopped => cleanup_calls (snd (fst r))
   | Running => []
   end).

(** ** The state after [n] cycles *)

Definition type_name (m : metric) : string :=
  match m with Batt => "batt" | Temp => "temp" | Light => "light" end.

(** The descriptor [open] gave for a channel. *)
Definition channel_fd (w : os) (i : nat) (m : metric) : Z :=
  os_open w (dev_path i (type_name m)).

Fixpoint sensor_at (w : os) (n i : nat) : sensor_data :=
  match n with
  | 0 => opened_sensor w i
  | S n' => polled w n' (sensor_at w n' i)
  end.

Definition state_at (w : os) (n : nat) : list sensor_data :=
  map (sensor_at w n) (seq 0 MAX_SENSORS).

(** No quit key in the cycles before [n]. *)
Definition no_quit_before (w : os) (n : nat) : Prop :=
  forall j, j < n -> is_quit (os_getch w j) = false.

(** The descriptors of all channels, in the order they were opened. *)
Definition opened_fds (w : os) : list Z :=
  flat_map (fun i => map (channel_fd w i) [Batt; Temp; Light])
    (seq 0 MAX_SENSORS).

(** The texts put on the screen, with their positions. *)
Fixpoint prints (t : list event) : list (nat * nat * string) :=
  match t with
  | [] => []
  | Mvprintw row col text :: t' => (row, col, text) :: prints t'
  | _ :: t' => prints t'
  end.

(** ** Sample records and systems *)

(** A buffer that holds the text [s]. *)
Definition buffer_of (s : string) : list ascii :=
  list_ascii_of_string s ++ repeat NUL (BUF_SIZE - String.length s).

(** A sensor whose battery device is missing while the other two have
    delivered readings. *)
Definition dead_battery : sensor_data :=
  {| fd_batt := -1; fd_temp := 4; fd_light := 5;
     val_batt := buffer_of "";
     val_temp := buffer_of "21.5";
     val_light := buffer_of "300" |}.

(** Every device is missing, no key is ever pressed. *)
Definition silent_os : os :=
  {| os_open := fun _ => (-1)%Z;
     os_read := fun _ _ => {| garbage := fun _ => "x"%char; answer := RError |};
     os_getch := fun _ => (-1)%Z;
     os_has_colors := true |}.

(** The raw bytes 3.7, a line-break, stray. *)
Definition raw_3_7_stray : list ascii :=
  list_ascii_of_string ("3.7" ++ String LF "stray")%string.

(** Sensor 3 has a battery device (descriptor 5) that always delivers
    [raw_3_7_stray] and a temperature device (descriptor 6) that always
    delivers forty digits; the operator presses [q] in cycle 1. *)
Definition demo_os : os :=
  {| os_open := fun path =>
       if String.eqb path "/dev/lunix3-batt" then 5%Z
       else if String.eqb path "/dev/lunix3-temp" then 6%Z
       else (-1)%Z;
     os_read := fun _ fd =>
       {| garbage := fun _ => "x"%char;
          answer := if (fd =? 5)%Z then RData raw_3_7_stray
                    else RData (list_ascii_of_string
                                  "0123456789012345678901234567890123456789") |};
     os_getch := fun k => if k =? 1 then 113%Z else (-1)%Z;
     os_has_colors := true |}.

(** ** The spec's words for the cached value *)

(** "Truncate at the first line-break". *)
Fixpoint before_line_break (t : list ascii) : list ascii :=
  match t with
  | [] => []
  | c :: t' => if is_lf c then [] else c :: before_line_break t'
  end.

(** "Decode as text, truncate at the first line-break": the text of a byte
    sequence read as a C string ends at its first NUL. *)
Definition spec_cached (raw : list ascii) : list ascii :=
  before_line_break (until_nul raw).


(** Sensor 0 has a battery device (descriptor 3) that delivers a lone
    line-break whenever it is read; no key is ever pressed. *)
Definition blank_line_os : os :=
  {| os_open := fun path =>
       if String.eqb path "/dev/lunix0-batt" then 3%Z else (-1)%Z;
     os_read := fun _ _ => {| garbage := fun _ => "x"%char; answer := RData [LF] |};
     os_getch := fun _ => (-1)%Z;
     os_has_colors := true |}.

(** Sensor 0 has a battery device (descriptor 3) that delivers thirteen
    characters whenever it is read; no key is ever pressed. *)
Definition wide_os : os :=
  {| os_open := fun path =>
       if String.eqb path "/dev/lunix0-batt" then 3%Z else (-1)%Z;
     os_read := fun _ _ =>
       {| garbage := fun _ => "x"%char;
          answer := RData (list_ascii_of_string "0123456789abc") |};
     os_getch := fun _ => (-1)%Z;
     os_has_colors := true |}.

(** The string a poll of [fd] in cycle [k] puts in the buffer; [None] when
    the poll returns 0. *)
Definition reading (w : os) (k : nat) (fd : Z) : option (list ascii) :=
  if (fd <? 0)%Z then None
  else if (read_result (answer (os_read w k fd)) >? 0)%Z
       then Some (line_text (delivered (answer (os_read w k fd))))
       else None.

(** The reads of a run. *)
Fixpoint reads (t : list event) : list (Z * nat * Z) :=
  match t with
  | [] => []
  | Read fd count bytes :: t' => (fd, count, bytes) :: reads t'
  | _ :: t' => reads t'
  end.

(** The first byte of a buffer is not NUL. *)
Definition starts_text (b : list ascii) : Prop :=
  exists c rest, b = c :: rest /\ is_nul c = false.

(** The open descriptors among [fds]: those [close] is called on. *)
Definition open_ones (fds : list Z) : list Z :=
  filter (fun fd => (fd >=? 0)%Z) fds.

(** The sleeps of a run: one ends every cycle that polled and drew. *)
Fixpoint sleeps (t : list event) : nat :=
  match t with
  | [] => 0
  | Usleep _ :: t' => S (sleeps t')
  | _ :: t' => sleeps t'
  end.

(** The two texts of a sensor row, with their positions. *)
Definition row_prints (i : nat) (s : sensor_data) : list (nat * nat * string) :=
  [(5 + i, 2, id_label i); (5 + i, 12, values_text s)].

Definition head_prints : list (nat * nat * string) :=
  [(0, 2, "Lunix:TNG Sensor Monitor (Press 'q' to quit)"%string);
   (1, 2, "[This version uses Polling - It does not support Wait-Wake]"%string);
   (3, 2, HEADER)].

Definition foot_prints : list (nat * nat * string) :=
  [(22, 2, "Status: Active Polling (O_NONBLOCK)..."%string)].

(** The descriptors the [open] calls of a run returned, and the ones its
    [close] calls were given. *)
Definition opens (t : list event) : list Z :=
  flat_map (fun e => match e with Open _ fd => [fd] | _ => [] end) t.

Definition closes (t : list event) : list Z :=
  flat_map (fun e => match e with Close fd => [fd] | _ => [] end) t.

(** The calls the loop makes. *)
Definition loop_call (e : event) : bool :=
  match e with
  | Getch _ | Read _ _ _ | Erase | Attron _ | Attroff _ | Mvprintw _ _ _
  | Refresh | Usleep _ => true
  | _ => false
  end.

(** ** More observations of a run *)

(** The channels in the order the program opens them. *)
Definition channels : list (nat * metric) :=
  list_prod (seq 0 MAX_SENSORS) [Batt; Temp; Light].

Definition channel_path (c : nat * metric) : string :=
  dev_path (fst c) (type_name (snd c)).

(** The channel that opens [path], if there is one. *)
Definition find_channel (path : string) : option (nat * metric) :=
  find (fun c => String.eqb (channel_path c) path) channels.

(** The [open] calls of a run: the path and what came back. *)
Definition open_log (t : list event) : list (string * Z) :=
  flat_map (fun e => match e with Open p fd => [(p, fd)] | _ => [] end) t.

(** The color pairs [init_pair] set up, and the ones [attron] switched on. *)
Definition init_pairs (t : list event) : list (nat * color * color) :=
  flat_map (fun e => match e with InitPair n fg bg => [(n, fg, bg)] | _ => [] end) t.

Definition pairs_of (a : list attr) : list nat :=
  flat_map (fun x => match x with COLOR_PAIR n => [n] | _ => [] end) a.

Definition pairs_used (t : list event) : list nat :=
  flat_map (fun e => match e with Attron a => pairs_of a | _ => [] end) t.

Definition start_colors (t : list event) : nat :=
  List.length (filter (fun e => match e with StartColor => true | _ => false end) t).

(** What the calls of a run may do with descriptors: a [read] asks for
    [BUF_SIZE - 1] bytes of a descriptor that [open] returned and that is not
    negative, and gets between -1 and [BUF_SIZE - 1]; a [close] is given such
    a descriptor. *)
Definition on_open_descriptor (w : os) (e : event) : Prop :=
  match e with
  | Read fd count bytes =>
      (0 <= fd)%Z /\ In fd (opened_fds w) /\ count = BUF_SIZE - 1 /\
      (-1 <= bytes <= Z.of_nat (BUF_SIZE - 1))%Z
  | Close fd => (0 <= fd)%Z /\ In fd (opened_fds w)
  | _ => True
  end.

(** ** The terminal's attributes *)

Definition attr_eqb (a b : attr) : bool :=
  match a, b with
  | COLOR_PAIR n, COLOR_PAIR m => n =? m
  | A_BOLD, A_BOLD => true
  | A_DIM, A_DIM => true
  | A_UNDERLINE, A_UNDERLINE => true
  | _, _ => false
  end.

(** [attroff(a)] with the attributes [on] in force. *)
Definition attr_off (a on : list attr) : list attr :=
  filter (fun x => negb (existsb (attr_eqb x) a)) on.

(** The texts a run prints, each with the attributes in force when it is
    printed, and the attributes left on at the end; [on] is in force at the
    start.  [attron] adds attributes, [attroff] takes them away, no other
    call changes them. *)
Fixpoint styled (on : list attr) (t : list event)
  : list (list attr * (nat * nat * string)) * list attr :=
  match t with
  | [] => ([], on)
  | Attron a :: t' => styled (on ++ a) t'
  | Attroff a :: t' => styled (attr_off a on) t'
  | Mvprintw row col text :: t' =>
      let r := styled on t' in ((on, (row, col, text)) :: fst r, snd r)
  | _ :: t' => styled on t'
  end.

(** The styled texts of the row of sensor [i]. *)
Definition row_styled (i : nat) (s : sensor_data)
  : list (list attr * (nat * nat * string)) :=
  [([COLOR_PAIR 3], (5 + i, 2, id_label i));
   ([COLOR_PAIR (values_pair s)], (5 + i, 12, values_text s))].

(** The reads of one cycle: one for every open descriptor, in the order of
    opening. *)
Definition cycle_reads (w : os) (k : nat) : list event :=
  map (fun fd => Read fd (BUF_SIZE - 1) (read_result (answer (os_read w k fd))))
    (open_ones (opened_fds w)).

(** Nothing is ready on any open descriptor in cycle [k]. *)
Definition idle_cycle (w : os) (k : nat) : Prop :=
  forall fd, In fd (opened_fds w) -> (0 <= fd)%Z ->
    (read_result (answer (os_read w k fd)) <= 0)%Z.

(** A system with a working battery device for every sensor (descriptor
    [3 i] for sensor [i], delivering 3.7 and a line-break), no other device,
    no colors, and the quit key in cycle 2. *)
Definition battery_os : os :=
  {| os_open := fun path =>
       match find_channel path with
       | Some (i, Batt) => Z.of_nat (3 * i)
       | _ => (-1)%Z
       end;
     os_read := fun _ _ =>
       {| garbage := fun _ => "?"%char;
          answer := RData (list_ascii_of_string "3.7" ++ [LF]) |};
     os_getch := fun k => if k =? 2 then 81%Z else (-1)%Z;
     os_has_colors := false |}.

(** Every color pair an [attron] of the program switches on is one of the
    four that [init_colors] sets up. *)
Definition known_pairs (e : event) : Prop :=
  match e with
  | Attron a => incl (pairs_of a) [1; 2; 3; 4]
  | _ => True
  end.

(** A call that is neither [start_color] nor [init_pair]. *)
Definition no_color_setup (e : event) : bool :=
  match e with
  | StartColor | InitPair _ _ _ => false
  | _ => true
  end.

(** A call other than [open]. *)
Definition not_open (e : event) : bool :=
  match e with
  | Open _ _ => false
  | _ => true
  end.

(** A system that agrees with [demo_os] on the battery device of sensor 3
    and on nothing else: another device is present, other keys are pressed,
    there are no colors, the stack holds other bytes. *)
Definition other_demo_os : os :=
  {| os_open := fun path =>
       if String.eqb path "/dev/lunix3-batt" then 5%Z
       else if String.eqb path "/dev/lunix0-temp" then 8%Z
       else (-1)%Z;
     os_read := fun _ fd =>
       {| garbage := fun _ => "~"%char;
          answer := if (fd =? 5)%Z then RData raw_3_7_stray else RError |};
     os_getch := fun _ => 120%Z;
     os_has_colors := false |}.

(** ** Tactics for lists of calls *)

(** [Forall known_pairs] of an explicit list. *)
Ltac known_pairs_list :=
  repeat first [apply Forall_nil | apply Forall_cons];
  try exact I;
  intros x Hx; cbn in Hx |- *; tauto.

(** [Forall P] of an explicit list on which [P] computes to [True]. *)
Ltac trivial_calls :=
  repeat first [apply Forall_nil | apply Forall_cons]; exact I.

(** A sensor whose three devices are open and have delivered readings. *)
Definition live_sensor : sensor_data :=
  {| fd_batt := 3; fd_temp := 4; fd_light := 5;
     val_batt := buffer_of "3.7";
     val_temp := buffer_of "21.5";
     val_light := buffer_of "300" |}.

(** Sensor 0 has a battery device (descriptor 3) and a temperature device
    (descriptor 4).  In cycle 0 the battery delivers 3.7 and a line-break
    and the temperature has nothing ready; from cycle 1 on the battery is at
    its end of stream ([read] returns 0) and the temperature still has
    nothing ready ([read] returns -1).  No key is ever pressed. *)
Definition stalled_os : os :=
  {| os_open := fun path =>
       if String.eqb path "/dev/lunix0-batt" then 3%Z
       else if String.eqb path "/dev/lunix0-temp" then 4%Z
       else (-1)%Z;
     os_read := fun k fd =>
       {| garbage := fun _ => "x"%char;
          answer := if (fd =? 3)%Z
                    then (if k =? 0
                          then RData (list_ascii_of_string "3.7" ++ [LF])
                          else RData [])
                    else RError |};
     os_getch := fun _ => (-1)%Z;
     os_has_colors := true |}.

(** * Proofs *)

(** ** The monad *)

Lemma bind_ret A B (a : A) (f : A -> M B) : bind (ret a) f = f a.
Proof. unfold bind, ret. destruct (f a) as [[b t]|]; reflexivity. Qed.

Lemma bind_call B (e : event) (f : unit -> M B) :
  bind (call e) f =
  match f tt with Some (b, t) => Some (b, e :: t) | None => None end.
Proof. reflexivity. Qed.

(** ** Arrays *)

Lemma store_app A (pre post : list A) x y :
  store (pre ++ x :: post) (List.length pre) y = Some (pre ++ y :: post).
Proof.
  induction pre as [|p pre IH]; simpl; [reflexivity|].
  rewrite IH. reflexivity.
Qed.

Lemma load_app A (pre post : list A) x :
  load (pre ++ x :: post) (List.length pre) = Some x.
Proof.
  unfold load. rewrite nth_error_app2 by lia.
  rewrite Nat.sub_diag. reflexivity.
Qed.

Lemma store_length A (a : list A) i x a' :
  store a i x = Some a' -> List.length a' = List.length a.
Proof.
  revert i a'. induction a as [|y a IH]; intros [|i] a'; simpl; try discriminate.
  - intros H. inversion H. reflexivity.
  - destruct (store a i x) eqn:E; simpl; [|discriminate].
    intros H. inversion H. simpl. f_equal. eauto.
Qed.

Lemma store_in_bounds A (a : list A) i x :
  store a i x <> None <-> i < List.length a.
Proof.
  revert i. induction a as [|y a IH]; intros [|i]; simpl.
  - split; [congruence|lia].
  - split; [congruence|lia].
  - split; [lia|congruence].
  - specialize (IH i). destruct (store a i x); simpl in *.
    + split; [intros _; apply -> Nat.succ_lt_mono; apply IH; congruence|congruence].
    + split; [congruence|]. intros H. apply Nat.succ_lt_mono in H.
      apply IH in H. congruence.
Qed.

Lemma split_at A (a : list A) i :
  i < List.length a ->
  exists pre x post, a = pre ++ x :: post /\ List.length pre = i.
Proof.
  intros H. destruct (nth_error a i) as [x|] eqn:E.
  - apply nth_error_split in E. destruct E as (pre & post & -> & <-).
    exists pre, x, post. auto.
  - apply nth_error_None in E. lia.
Qed.

(** ** The string routines *)

Lemma line_text_clean d : Forall clean (line_text d).
Proof.
  induction d as [|c d IH]; simpl; [constructor|].
  destruct (is_nul c) eqn:E1; simpl; [constructor|].
  destruct (is_lf c) eqn:E2; [constructor|].
  constructor; [split; assumption|assumption].
Qed.

Lemma line_text_length d : List.length (line_text d) <= List.length d.
Proof.
  induction d as [|c d IH]; simpl; [lia|].
  destruct (is_nul c || is_lf c); simpl; lia.
Qed.

(** The array [d ++ NUL :: tail] reads as the line of [d], then a NUL or a
    line-break. *)
Lemma split_line d tail :
  exists c rest,
    d ++ NUL :: tail = line_text d ++ c :: rest /\ (c = NUL \/ c = LF).
Proof.
  induction d as [|x d IH]; simpl.
  - exists NUL, tail. auto.
  - destruct (is_nul x) eqn:E1; simpl.
    + exists x, (d ++ NUL :: tail). split; [reflexivity|].
      left. apply Ascii.eqb_eq. exact E1.
    + destruct (is_lf x) eqn:E2.
      * exists x, (d ++ NUL :: tail). split; [reflexivity|].
        right. apply Ascii.eqb_eq. exact E2.
      * destruct IH as (c & rest & -> & Hc). exists c, rest. auto.
Qed.

Lemma strchr_from_lf t i rest :
  Forall clean t ->
  strchr_from (t ++ LF :: rest) i LF = Some (Some (i + List.length t)).
Proof.
  intros H. revert i. induction H as [|c t [Hn Hl] _ IH]; intros i; simpl.
  - rewrite Nat.add_0_r. reflexivity.
  - unfold is_lf in Hl. rewrite Hl, Hn, IH. f_equal. f_equal. lia.
Qed.

Lemma strchr_from_nul t i rest :
  Forall clean t ->
  strchr_from (t ++ NUL :: rest) i LF = Some None.
Proof.
  intros H. revert i. induction H as [|c t [Hn Hl] _ IH]; intros i; simpl.
  - reflexivity.
  - unfold is_lf in Hl. rewrite Hl, Hn, IH. reflexivity.
Qed.

Lemma memset_nul_spec dst n :
  n <= List.length dst ->
  memset_nul dst n = Some (repeat NUL n ++ skipn n dst).
Proof.
  revert dst. induction n as [|n IH]; intros dst H; simpl; [reflexivity|].
  destruct dst as [|x dst]; simpl in *; [lia|].
  rewrite IH by lia. reflexivity.
Qed.

Lemma strncpy_spec t rest dst n :
  Forall clean t -> List.length t < n -> n <= List.length dst ->
  strncpy dst (t ++ NUL :: rest) n =
  Some (t ++ repeat NUL (n - List.length t) ++ skipn n dst).
Proof.
  intros H. revert dst n. induction H as [|c t [Hn Hl] _ IH]; intros dst n Ht Hd.
  - destruct n as [|n]; simpl in *; [lia|].
    destruct dst as [|x dst]; simpl in *; [lia|].
    rewrite memset_nul_spec by lia. reflexivity.
  - destruct n as [|n]; simpl in *; [lia|].
    rewrite Hn. destruct dst as [|x dst]; simpl in *; [lia|].
    rewrite IH by lia. reflexivity.
Qed.

Lemma c_chars_spec t rest :
  Forall clean t -> c_chars (t ++ NUL :: rest) = Some t.
Proof.
  induction 1 as [|c t [Hn Hl] _ IH]; simpl; [reflexivity|].
  rewrite Hn, IH. reflexivity.
Qed.

(** ** try_read in closed form *)

Lemma local_array_length g n : List.length (local_array g n) = n.
Proof. unfold local_array. rewrite length_map, length_seq. reflexivity. Qed.

Lemma delivered_length r : List.length (delivered r) <= BUF_SIZE - 1.
Proof.
  destruct r; cbn [delivered]; [cbn; lia|]. apply firstn_le_length.
Qed.

Lemma stored_length d :
  List.length d <= BUF_SIZE - 1 -> List.length (stored d) = BUF_SIZE.
Proof.
  intros H. unfold stored. rewrite length_app, repeat_length.
  pose proof (line_text_length d). lia.
Qed.

Lemma sys_read_data payload fd buf :
  List.length buf = BUF_SIZE ->
  let d := firstn (BUF_SIZE - 1) payload in
  sys_read (RData payload) fd buf (BUF_SIZE - 1) =
  Some ((Z.of_nat (List.length d), d ++ skipn (List.length d) buf),
        [Read fd (BUF_SIZE - 1) (Z.of_nat (List.length d))]).
Proof.
  intros Hb d. unfold sys_read. fold d.
  assert (Hd : List.length d <= BUF_SIZE - 1) by apply firstn_le_length.
  destruct (Nat.leb_spec (List.length d) (List.length buf)) as [_|Hn];
    [reflexivity|].
  rewrite Hb in Hn. unfold BUF_SIZE in *. lia.
Qed.

Lemma try_read_spec env fd buffer :
  List.length buffer = BUF_SIZE ->
  try_read env fd buffer =
  Some ((next_result env fd, next_value env fd buffer), read_calls env fd).
Proof.
  intros Hb. unfold try_read, next_result, next_value, read_calls.
  destruct (fd <? 0)%Z; [reflexivity|].
  destruct (answer env) as [|payload] eqn:Ea; [reflexivity|].
  rewrite sys_read_data by apply local_array_length.
  unfold read_result. cbn [delivered bind].
  set (d := firstn (BUF_SIZE - 1) payload).
  assert (Hd : List.length d <= BUF_SIZE - 1) by apply firstn_le_length.
  destruct (Z.gtb_spec (Z.of_nat (List.length d)) 0) as [Hpos|Hz]; [|reflexivity].
  rewrite Nat2Z.id.
  destruct (split_at _ (local_array (garbage env) BUF_SIZE) (List.length d))
    as (pre & x & post & Hg & Hpre).
  { rewrite local_array_length. unfold BUF_SIZE in *. lia. }
  rewrite Hg, <- Hpre, skipn_app, Nat.sub_diag, skipn_all, Hpre.
  cbn [skipn app]. rewrite store_app. cbn [lift]. rewrite bind_ret.
  destruct (split_line d post) as (c & rest & Hsplit & Hc).
  rewrite Hsplit.
  pose proof (line_text_clean d) as Hclean.
  pose proof (line_text_length d) as Hlen.
  assert (Hcopy : lift (strncpy buffer (line_text d ++ NUL :: rest) BUF_SIZE)
                  = ret (stored d)).
  { rewrite strncpy_spec; [|assumption|unfold BUF_SIZE in *; lia|lia].
    rewrite skipn_all2, app_nil_r by lia. reflexivity. }
  destruct Hc as [-> | ->].
  - unfold strchr. rewrite strchr_from_nul by assumption.
    cbn [lift]. rewrite !bind_ret, Hcopy, bind_ret. reflexivity.
  - unfold strchr. rewrite strchr_from_lf by assumption.
    cbn [lift Nat.add]. rewrite bind_ret, store_app. cbn [lift].
    rewrite bind_ret, Hcopy, bind_ret. reflexivity.
Qed.

(** ** Loops over the global array *)

Lemma bind_eq A B (m : M A) (f : A -> M B) a t1 :
  m = Some (a, t1) ->
  bind m f = match f a with Some (b, t2) => Some (b, t1 ++ t2) | None => None end.
Proof. intros ->. reflexivity. Qed.

Lemma mapi_const A B (f : A -> B) l i : mapi i (fun _ => f) l = map f l.
Proof.
  revert i. induction l as [|x l IH]; intros i; simpl; [reflexivity|].
  rewrite IH. reflexivity.
Qed.

Section ArrayLoop.
Variable A : Type.
Variable body : nat -> list A -> M (list A).
Variable f : nat -> A -> A.
Variable tr : nat -> A -> list event.
Variable P : A -> Prop.
Hypothesis body_spec : forall pre x post,
  P x ->
  body (List.length pre) (pre ++ x :: post) =
  Some (pre ++ f (List.length pre) x :: post, tr (List.length pre) x).

Lemma for_loop_array rest : forall pre,
  Forall P rest ->
  for_loop (List.length pre) (List.length rest) body (pre ++ rest) =
  Some (pre ++ mapi (List.length pre) f rest,
        List.concat (mapi (List.length pre) tr rest)).
Proof.
  induction rest as [|x rest IH]; intros pre H.
  - reflexivity.
  - inversion H as [|? ? Hx Hrest]; subst.
    cbn [for_loop List.length mapi List.concat].
    rewrite (bind_eq _ _ _ _ _ _ (body_spec pre x rest Hx)).
    specialize (IH (pre ++ [f (List.length pre) x]) Hrest).
    rewrite length_app in IH. cbn [List.length] in IH.
    rewrite Nat.add_1_r in IH. rewrite <- app_assoc in IH. cbn [app] in IH.
    rewrite IH, <- app_assoc. reflexivity.
Qed.
End ArrayLoop.

Lemma for_loop_unit (g : nat -> unit -> M unit) (tr : nat -> list event) n :
  forall i,
  (forall j, i <= j < i + n -> g j tt = Some (tt, tr j)) ->
  for_loop i n g tt = Some (tt, flat_map tr (seq i n)).
Proof.
  induction n as [|n IH]; intros i H; [reflexivity|].
  cbn [for_loop seq flat_map].
  rewrite (bind_eq _ _ _ _ _ _ (H i ltac:(lia))), IH; [reflexivity|].
  intros j Hj. apply H. lia.
Qed.

(** ** Polling in closed form *)

Lemma poll_channel_spec w k m pre s post :
  List.length (val_of m s) = BUF_SIZE ->
  poll_channel w k m (List.length pre) (pre ++ s :: post) =
  Some ((next_result (os_read w k (fd_of m s)) (fd_of m s),
         pre ++ set_val m (next_value (os_read w k (fd_of m s)) (fd_of m s)
                             (val_of m s)) s :: post),
        read_calls (os_read w k (fd_of m s)) (fd_of m s)).
Proof.
  intros H. unfold poll_channel.
  rewrite load_app. cbn [lift]. rewrite bind_ret.
  rewrite (bind_eq _ _ _ _ _ _ (try_read_spec _ _ _ H)). cbn [snd fst].
  rewrite store_app. cbn [lift]. rewrite bind_ret. cbn [ret].
  rewrite app_nil_r. reflexivity.
Qed.

Lemma next_value_length env fd b :
  List.length b = BUF_SIZE -> List.length (next_value env fd b) = BUF_SIZE.
Proof.
  intros H. unfold next_value.
  destruct (fd <? 0)%Z; [assumption|].
  destruct (read_result (answer env) >? 0)%Z; [|assumption].
  apply stored_length, delivered_length.
Qed.

Lemma poll_sensor_spec w k pre s post :
  sized s ->
  poll_sensor w k (List.length pre) (pre ++ s :: post) =
  Some (pre ++ polled w k s :: post, poll_calls w k s).
Proof.
  intros (Hb & Ht & Hl). unfold poll_sensor.
  rewrite (bind_eq _ _ _ _ _ _ (poll_channel_spec w k Batt pre s post Hb)). cbn [snd].
  match goal with |- context [poll_channel w k Temp _ (pre ++ ?s1 :: post)] =>
    rewrite (bind_eq _ _ _ _ _ _ (poll_channel_spec w k Temp pre s1 post Ht))
  end. cbn [snd].
  match goal with |- context [poll_channel w k Light _ (pre ++ ?s2 :: post)] =>
    rewrite (bind_eq _ _ _ _ _ _ (poll_channel_spec w k Light pre s2 post Hl))
  end. cbn [snd ret].
  unfold poll_calls, polled. cbn. rewrite app_nil_r. reflexivity.
Qed.

Lemma poll_all_spec w k sensors :
  List.length sensors = MAX_SENSORS -> Forall sized sensors ->
  poll_all w k sensors =
  Some (map (polled w k) sensors, flat_map (poll_calls w k) sensors).
Proof.
  intros Hlen H. unfold poll_all. rewrite <- Hlen.
  pose proof (for_loop_array _ (poll_sensor w k) (fun _ => polled w k)
                (fun _ => poll_calls w k) sized
                (fun pre x post Hx => poll_sensor_spec w k pre x post Hx)
                sensors [] H) as E.
  cbn [List.length app] in E. rewrite E, !mapi_const, flat_map_concat_map.
  reflexivity.
Qed.

(** ** Buffers keep holding strings *)

Lemma c_chars_until_nul a t : c_chars a = Some t -> t = until_nul a.
Proof.
  revert t. induction a as [|c a IH]; intros t; simpl; [discriminate|].
  destruct (is_nul c); [intros H; inversion H; reflexivity|].
  destruct (c_chars a) as [t'|]; simpl; [|discriminate].
  intros H. inversion H. f_equal. apply IH. reflexivity.
Qed.

Lemma c_chars_stored d :
  List.length d <= BUF_SIZE - 1 -> c_chars (stored d) = Some (line_text d).
Proof.
  intros H. unfold stored.
  pose proof (line_text_length d) as Hl.
  destruct (BUF_SIZE - List.length (line_text d)) as [|n] eqn:E.
  - unfold BUF_SIZE in *. lia.
  - cbn [repeat]. apply c_chars_spec, line_text_clean.
Qed.

Lemma holds_string_stored d :
  List.length d <= BUF_SIZE - 1 -> holds_string (stored d).
Proof.
  intros H. split; [apply stored_length, H|].
  exists (line_text d). split; [apply c_chars_stored, H|].
  pose proof (line_text_length d). lia.
Qed.

Lemma holds_string_zero : holds_string (repeat NUL BUF_SIZE).
Proof. split; [reflexivity|]. exists []. split; [reflexivity|cbn; lia]. Qed.

Lemma holds_string_next env fd b :
  holds_string b -> holds_string (next_value env fd b).
Proof.
  intros H. unfold next_value.
  destruct (fd <? 0)%Z; [assumption|].
  destruct (read_result (answer env) >? 0)%Z; [|assumption].
  apply holds_string_stored, delivered_length.
Qed.

Lemma sane_polled w k s : sane s -> sane (polled w k s).
Proof.
  intros (Hb & Ht & Hl). repeat split; cbn; apply holds_string_next; assumption.
Qed.

Lemma sane_sized s : sane s -> sized s.
Proof. intros (Hb & Ht & Hl). repeat split; [apply Hb|apply Ht|apply Hl]. Qed.

Lemma sane_all_polled w k sensors :
  sane_all sensors -> sane_all (map (polled w k) sensors).
Proof.
  intros [Hlen H]. split; [rewrite length_map; exact Hlen|].
  apply Forall_map. eapply Forall_impl; [|exact H].
  intros s. apply sane_polled.
Qed.

Lemma sane_all_opened w : sane_all (opened w).
Proof.
  split; [reflexivity|]. unfold opened. apply Forall_map, Forall_forall.
  intros i _. repeat split; try reflexivity; apply holds_string_zero.
Qed.

(** ** Startup, drawing and cleanup in closed form *)

Lemma startup_spec w : startup w = Some (opened w, startup_calls w).
Proof.
  unfold startup, startup_calls, curses_calls, init_colors.
  destruct (os_has_colors w); reflexivity.
Qed.

Lemma is_offline_spec s :
  holds_string (val_batt s) -> is_offline s = Some (offline s).
Proof.
  intros [Hlen _]. unfold is_offline, offline.
  destruct (fd_batt s <? 0)%Z; [reflexivity|].
  destruct (val_batt s) as [|c b]; [discriminate|reflexivity].
Qed.

Lemma c_str_shown b : holds_string b -> c_str b = Some (shown b).
Proof.
  intros [_ (t & Ht & _)]. unfold c_str, shown.
  rewrite Ht. cbn. rewrite (c_chars_until_nul _ _ Ht). reflexivity.
Qed.

Lemma draw_values_spec row s :
  sane s ->
  draw_values row s =
  Some (tt, [Attron [COLOR_PAIR (values_pair s)];
             Mvprintw row 12 (values_text s);
             Attroff [COLOR_PAIR (values_pair s)]]).
Proof.
  intros (Hb & Ht & Hl). unfold draw_values, values_pair, values_text.
  rewrite (is_offline_spec _ Hb). cbn [lift]. rewrite bind_ret.
  destruct (offline s); [reflexivity|].
  rewrite (c_str_shown _ Hb), (c_str_shown _ Ht), (c_str_shown _ Hl).
  reflexivity.
Qed.

Lemma draw_row_spec sensors i :
  sane_all sensors -> i < MAX_SENSORS ->
  draw_row sensors i tt = Some (tt, at_index row_calls sensors i).
Proof.
  intros [Hlen H] Hi. unfold draw_row, at_index, load.
  destruct (nth_error sensors i) as [s|] eqn:E.
  - assert (Hs : sane s).
    { eapply Forall_forall; [exact H|]. eapply nth_error_In, E. }
    rewrite !bind_call. cbn [lift]. rewrite bind_ret.
    rewrite (draw_values_spec _ _ Hs). reflexivity.
  - apply nth_error_None in E. lia.
Qed.

Lemma draw_ui_spec sensors :
  sane_all sensors -> draw_ui sensors = Some (tt, frame sensors).
Proof.
  intros H. unfold draw_ui, frame.
  rewrite !bind_call.
  rewrite (bind_eq _ _ _ _ _ _
             (for_loop_unit (draw_row sensors)
                (at_index row_calls sensors) MAX_SENSORS 0
                (fun j Hj => draw_row_spec sensors j H (proj2 Hj)))).
  reflexivity.
Qed.

Lemma close_if_open_spec fd : close_if_open fd = Some (tt, close_calls fd).
Proof. unfold close_if_open, close_calls. destruct (fd >=? 0)%Z; reflexivity. Qed.

Lemma close_sensor_spec sensors i :
  i < List.length sensors ->
  close_sensor sensors i tt =
  Some (tt, at_index (fun _ => sensor_close_calls) sensors i).
Proof.
  intros Hi. unfold close_sensor, at_index, load.
  destruct (nth_error sensors i) as [s|] eqn:E.
  - cbn [lift]. rewrite bind_ret.
    rewrite (bind_eq _ _ _ _ _ _ (close_if_open_spec (fd_batt s))).
    rewrite (bind_eq _ _ _ _ _ _ (close_if_open_spec (fd_temp s))).
    rewrite close_if_open_spec. reflexivity.
  - apply nth_error_None in E. lia.
Qed.

Lemma cleanup_spec sensors :
  List.length sensors = MAX_SENSORS ->
  cleanup sensors = Some (tt, cleanup_calls sensors).
Proof.
  intros H. unfold cleanup, cleanup_calls.
  rewrite (bind_eq _ _ _ _ _ _
             (for_loop_unit (close_sensor sensors)
                (at_index (fun _ => sensor_close_calls) sensors)
                MAX_SENSORS 0
                (fun j Hj => close_sensor_spec sensors j
                               (eq_ind_r (fun n => j < n) (proj2 Hj) H)))).
  reflexivity.
Qed.

(** ** The program in closed form: it never faults *)

Lemma main_loop_spec w fuel : forall k sensors,
  sane_all sensors ->
  main_loop w fuel k sensors = Some (run w fuel k sensors).
Proof.
  induction fuel as [|fuel IH]; intros k sensors H; [reflexivity|].
  cbn [main_loop run]. rewrite bind_call.
  destruct (is_quit (os_getch w k)); [reflexivity|].
  destruct H as [Hlen Hs].
  rewrite (bind_eq _ _ _ _ _ _
             (poll_all_spec w k sensors Hlen (Forall_impl _ sane_sized Hs))).
  assert (H' : sane_all (map (polled w k) sensors))
    by (apply sane_all_polled; split; assumption).
  rewrite (bind_eq _ _ _ _ _ _ (draw_ui_spec _ H')).
  rewrite bind_call, (IH _ _ H').
  destruct (run w fuel (S k) (map (polled w k) sensors)) as [r t].
  unfold cycle_calls. cbn [fst snd app]. rewrite <- !app_assoc. reflexivity.
Qed.

Lemma run_sane w fuel : forall k sensors,
  sane_all sensors -> sane_all (snd (fst (run w fuel k sensors))).
Proof.
  induction fuel as [|fuel IH]; intros k sensors H; [exact H|].
  cbn [run]. destruct (is_quit (os_getch w k)); [exact H|].
  cbn [fst snd]. apply IH, sane_all_polled, H.
Qed.

Lemma main_spec w fuel : main w fuel = Some (main_run w fuel).
Proof.
  unfold main, main_run.
  rewrite (bind_eq _ _ _ _ _ _ (startup_spec w)).
  rewrite (main_loop_spec w fuel 0 (opened w) (sane_all_opened w)).
  pose proof (run_sane w fuel 0 (opened w) (sane_all_opened w)) as Hs.
  destruct (run w fuel 0 (opened w)) as [[st sensors] t].
  cbn [fst snd bind] in *. destruct st.
  - cbn [ret]. rewrite !app_nil_r. reflexivity.
  - rewrite (bind_eq _ _ _ _ _ _ (cleanup_spec sensors (proj1 Hs))). cbn [ret].
    rewrite !app_nil_r. reflexivity.
Qed.

(** ** The loop while no quit key arrives, and when one does *)

Lemma state_at_succ w n : state_at w (S n) = map (polled w n) (state_at w n).
Proof. unfold state_at. rewrite map_map. reflexivity. Qed.

Lemma state_at_zero w : state_at w 0 = opened w.
Proof. reflexivity. Qed.

Lemma state_at_nth w n i :
  i < MAX_SENSORS -> nth_error (state_at w n) i = Some (sensor_at w n i).
Proof.
  intros H. unfold state_at.
  rewrite nth_error_map, nth_error_nth' with (d := 0) by (rewrite length_seq; exact H).
  rewrite seq_nth by exact H. reflexivity.
Qed.

Lemma sane_all_state_at w n : sane_all (state_at w n).
Proof.
  induction n as [|n IH]; [apply sane_all_opened|].
  rewrite state_at_succ. apply sane_all_polled, IH.
Qed.

Lemma run_running w fuel : forall k,
  (forall j, k <= j < k + fuel -> is_quit (os_getch w j) = false) ->
  fst (run w fuel k (state_at w k)) = (Running, state_at w (k + fuel)).
Proof.
  induction fuel as [|fuel IH]; intros k H.
  - rewrite Nat.add_0_r. reflexivity.
  - cbn [run]. rewrite (H k) by lia. cbn [fst].
    rewrite <- state_at_succ, IH by (intros j Hj; apply H; lia).
    f_equal. f_equal. lia.
Qed.

Lemma run_stopped w q : forall k rest,
  (forall j, k <= j < k + q -> is_quit (os_getch w j) = false) ->
  is_quit (os_getch w (k + q)) = true ->
  run w (q + S rest) k (state_at w k) =
  ((Stopped, state_at w (k + q)),
   snd (run w q k (state_at w k)) ++ [Getch (os_getch w (k + q))]).
Proof.
  induction q as [|q IH]; intros k rest H Hq.
  - rewrite Nat.add_0_r in *. cbn [Nat.add run]. rewrite Hq. reflexivity.
  - cbn [Nat.add run]. rewrite (H k) by lia.
    rewrite <- state_at_succ.
    rewrite IH.
    + cbn [fst snd]. rewrite <- app_assoc.
      replace (S k + q) with (k + S q) by lia. reflexivity.
    + intros j Hj. apply H. lia.
    + replace (S k + q) with (k + S q) by lia. exact Hq.
Qed.

Lemma main_running w n :
  no_quit_before w n ->
  main w n =
  Some ((Running, state_at w n), startup_calls w ++ snd (run w n 0 (opened w))).
Proof.
  intros H. rewrite main_spec. unfold main_run.
  pose proof (run_running w n 0 (fun j Hj => H j (proj2 Hj))) as E.
  rewrite state_at_zero in E. cbn [Nat.add] in E.
  rewrite E. cbn [fst snd]. rewrite app_nil_r. reflexivity.
Qed.

Lemma main_stopped w q fuel :
  no_quit_before w q -> is_quit (os_getch w q) = true -> q < fuel ->
  main w fuel =
  Some ((Stopped, state_at w q),
        (startup_calls w ++ snd (run w q 0 (opened w)))
        ++ [Getch (os_getch w q)] ++ cleanup_calls (state_at w q)).
Proof.
  intros H Hq Hf. rewrite main_spec. unfold main_run.
  replace fuel with (q + S (fuel - S q)) by lia.
  pose proof (run_stopped w q 0 (fuel - S q)
                (fun j Hj => H j (proj2 Hj)) Hq) as E.
  rewrite state_at_zero in E. cbn [Nat.add] in E.
  rewrite E. cbn [fst snd]. rewrite <- !app_assoc. reflexivity.
Qed.

(** * The claims *)

Lemma shown_empty b :
  b <> [] -> (shown b = ""%string <-> is_nul (hd NUL b) = true).
Proof.
  destruct b as [|c b]; [congruence|intros _].
  unfold shown. cbn [until_nul hd].
  destruct (is_nul c); cbn; split; congruence.
Qed.

Lemma offline_iff s :
  holds_string (val_batt s) ->
  offline s = true <->
  (fd_batt s < 0)%Z \/ c_str (val_batt s) = Some ""%string.
Proof.
  intros H. rewrite (c_str_shown _ H). unfold offline.
  assert (Hne : val_batt s <> []).
  { destruct H as [Hl _]. destruct (val_batt s); [discriminate|congruence]. }
  rewrite orb_true_iff, Z.ltb_lt, <- (shown_empty _ Hne).
  split; (intros [H1|H1]; [left; exact H1|right; congruence]).
Qed.

Lemma string_app_assoc a b c : ((a ++ b) ++ c = a ++ (b ++ c))%string.
Proof.
  induction a as [|x a IH]; [reflexivity|].
  cbn [append]. rewrite IH. reflexivity.
Qed.

Lemma fmt_values_spelled b t l :
  fmt_values b t l =
  (b ++ string_of_list_ascii (repeat " "%char (12 - String.length b))
   ++ "  "
   ++ t ++ string_of_list_ascii (repeat " "%char (12 - String.length t))
   ++ "  "
   ++ l ++ string_of_list_ascii (repeat " "%char (12 - String.length l)))%string.
Proof.
  unfold fmt_values, fmt_left, spaces, VALUE_WIDTH.
  rewrite !string_app_assoc. reflexivity.
Qed.

(** C1.  A sensor is offline exactly when its battery descriptor is negative
    (the open failed) or its battery buffer holds the empty string.  An
    offline row prints OFFLINE in the three value fields, whatever the
    temperature and light buffers hold; an online row prints the string of
    each of the three buffers, battery, temperature, light in this order,
    each followed by spaces up to twelve characters, two spaces apart. *)
Theorem C1_offline_rule (row : nat) (s : sensor_data) :
  sane s ->
  (is_offline s = Some true <->
     (fd_batt s < 0)%Z \/ c_str (val_batt s) = Some ""%string) /\
  (is_offline s = Some true \/ is_offline s = Some false) /\
  (is_offline s = Some true ->
     draw_values row s =
     Some (tt, [Attron [COLOR_PAIR 4];
                Mvprintw row 12 "OFFLINE       OFFLINE       OFFLINE     ";
                Attroff [COLOR_PAIR 4]])) /\
  (is_offline s = Some false ->
     exists b t l,
       c_str (val_batt s) = Some b /\
       c_str (val_temp s) = Some t /\
       c_str (val_light s) = Some l /\
       draw_values row s =
       Some (tt, [Attron [COLOR_PAIR 2];
                  Mvprintw row 12 (fmt_values b t l);
                  Attroff [COLOR_PAIR 2]]) /\
       fmt_values b t l =
       (b ++ string_of_list_ascii (repeat " "%char (12 - String.length b))
        ++ "  "
        ++ t ++ string_of_list_ascii (repeat " "%char (12 - String.length t))
        ++ "  "
        ++ l ++ string_of_list_ascii (repeat " "%char (12 - String.length l)))%string).
Proof.
  intros Hs. pose proof Hs as (Hb & Ht & Hl).
  rewrite (is_offline_spec _ Hb), (draw_values_spec row s Hs).
  unfold values_pair, values_text.
  repeat split.
  - intros H. apply (offline_iff _ Hb). congruence.
  - intros H. f_equal. apply (offline_iff _ Hb). exact H.
  - destruct (offline s); auto.
  - intros H. inversion H as [E]. rewrite E. reflexivity.
  - intros H. inversion H as [E]. rewrite E.
    exists (shown (val_batt s)), (shown (val_temp s)), (shown (val_light s)).
    rewrite (c_str_shown _ Hb), (c_str_shown _ Ht), (c_str_shown _ Hl).
    repeat split. apply fmt_values_spelled.
Qed.

Lemma C1_offline_rule_witness :
  sane dead_battery /\
  c_str (val_temp dead_battery) = Some "21.5"%string /\
  draw_values 5 dead_battery =
  Some (tt, [Attron [COLOR_PAIR 4];
             Mvprintw 5 12 "OFFLINE       OFFLINE       OFFLINE     ";
             Attroff [COLOR_PAIR 4]]) /\
  sane live_sensor /\
  is_offline live_sensor = Some false /\
  draw_values 8 live_sensor =
  Some (tt, [Attron [COLOR_PAIR 2];
             Mvprintw 8 12 "3.7           21.5          300         ";
             Attroff [COLOR_PAIR 2]]).
Proof.
  assert (Hs : sane dead_battery).
  { repeat split; try reflexivity; eexists; (split; [reflexivity|cbn; lia]). }
  assert (Hl : sane live_sensor).
  { repeat split; try reflexivity; eexists; (split; [reflexivity|cbn; lia]). }
  split; [exact Hs|]. split; [reflexivity|].
  split.
  { destruct (C1_offline_rule 5 dead_battery Hs) as (H1 & _ & H3 & _).
    apply H3, H1. left. reflexivity. }
  split; [exact Hl|]. split; [reflexivity|].
  destruct (C1_offline_rule 8 live_sensor Hl) as (_ & _ & _ & H4).
  destruct (H4 eq_refl) as (b & t & l & Hb & Ht & Hlt & Hd & Hf).
  rewrite Hd, Hf.
  vm_compute in Hb, Ht, Hlt.
  inversion Hb; inversion Ht; inversion Hlt; subst. reflexivity.
Defined.

(** ** One channel over the cycles *)

Lemma sensor_at_fd w n i m : fd_of m (sensor_at w n i) = channel_fd w i m.
Proof.
  induction n as [|n IH]; [destruct m; reflexivity|].
  cbn [sensor_at]. destruct m; exact IH.
Qed.

Lemma sensor_at_val w n i m :
  val_of m (sensor_at w (S n) i) =
  next_value (os_read w n (channel_fd w i m)) (channel_fd w i m)
    (val_of m (sensor_at w n i)).
Proof.
  rewrite <- (sensor_at_fd w n i m). destruct m; reflexivity.
Qed.


Lemma nth_error_replace A (pre post : list A) x y j :
  nth_error (pre ++ y :: post) j =
  if j =? List.length pre then Some y else nth_error (pre ++ x :: post) j.
Proof.
  destruct (Nat.eqb_spec j (List.length pre)) as [->|Hne].
  - rewrite nth_error_app2, Nat.sub_diag by lia. reflexivity.
  - destruct (Nat.lt_ge_cases j (List.length pre)) as [Hlt|Hge].
    + rewrite !nth_error_app1 by exact Hlt. reflexivity.
    + rewrite !nth_error_app2 by exact Hge.
      destruct (j - List.length pre) as [|d] eqn:E; [lia|reflexivity].
Qed.

Lemma next_result_01 env fd : next_result env fd = 0%Z \/ next_result env fd = 1%Z.
Proof.
  unfold next_result. destruct (fd <? 0)%Z; [auto|].
  destruct (read_result (answer env) >? 0)%Z; auto.
Qed.

(** C9.  A call [try_read(sensors[i].fd_m, sensors[i].val_m)] returns, with
    0 or 1, and leaves every descriptor of every sensor and every buffer
    other than [val_m] of sensor [i] as it was. *)
Theorem C9_poll_touches_one_buffer (w : os) (k : nat) (m : metric) (i : nat)
  (sensors : list sensor_data) :
  Forall sized sensors -> i < List.length sensors ->
  exists r sensors' calls,
    poll_channel w k m i sensors = Some ((r, sensors'), calls) /\
    (r = 0%Z \/ r = 1%Z) /\
    List.length sensors' = List.length sensors /\
    forall j s, nth_error sensors j = Some s ->
      exists s',
        nth_error sensors' j = Some s' /\
        fd_batt s' = fd_batt s /\ fd_temp s' = fd_temp s /\
        fd_light s' = fd_light s /\
        forall m', j <> i \/ m' <> m -> val_of m' s' = val_of m' s.
Proof.
  intros Hsz Hi.
  destruct (split_at _ sensors i Hi) as (pre & x & post & -> & Hpre). subst i.
  assert (Hx : sized x).
  { eapply Forall_forall; [exact Hsz|]. apply in_elt. }
  assert (Hm : List.length (val_of m x) = BUF_SIZE).
  { destruct Hx as (Hb & Ht & Hl). destruct m; assumption. }
  rewrite (poll_channel_spec w k m pre x post Hm).
  eexists _, _, _. split; [reflexivity|].
  split; [apply next_result_01|].
  split; [rewrite !length_app; reflexivity|].
  intros j s Hj.
  rewrite (nth_error_replace _ pre post x).
  destruct (Nat.eqb_spec j (List.length pre)) as [->|Hne].
  - rewrite nth_error_app2, Nat.sub_diag in Hj by lia.
    inversion Hj; subst s. eexists. split; [reflexivity|].
    repeat split; try (destruct m; reflexivity).
    intros m' [H|H]; [congruence|].
    destruct m, m'; try reflexivity; congruence.
  - exists s. repeat split; auto.
Qed.

Lemma C9_poll_touches_one_buffer_witness :
  exists r sensors' calls,
    poll_channel demo_os 0 Temp 0 [dead_battery] = Some ((r, sensors'), calls) /\
    (r = 0%Z \/ r = 1%Z) /\
    List.length sensors' = 1 /\
    forall j s, nth_error [dead_battery] j = Some s ->
      exists s',
        nth_error sensors' j = Some s' /\
        fd_batt s' = fd_batt s /\ fd_temp s' = fd_temp s /\
        fd_light s' = fd_light s /\
        forall m', j <> 0 \/ m' <> Temp -> val_of m' s' = val_of m' s.
Proof.
  apply (C9_poll_touches_one_buffer demo_os 0 Temp 0 [dead_battery]).
  - repeat constructor.
  - simpl. lia.
Defined.

(** ** Failed polls *)

Lemma sys_read_result env fd :
  exists temp_buf,
    sys_read (answer env) fd (local_array (garbage env) BUF_SIZE) (BUF_SIZE - 1) =
    Some ((read_result (answer env), temp_buf),
          [Read fd (BUF_SIZE - 1) (read_result (answer env))]) /\
    firstn (List.length (delivered (answer env))) temp_buf = delivered (answer env).
Proof.
  destruct (answer env) as [|payload].
  - eexists. split; reflexivity.
  - rewrite sys_read_data by apply local_array_length.
    eexists. split; [reflexivity|].
    cbn [delivered]. rewrite firstn_app, Nat.sub_diag, firstn_all.
    cbn [firstn]. apply app_nil_r.
Qed.

Lemma try_read_unavailable env fd buffer :
  (fd < 0)%Z -> try_read env fd buffer = Some ((0%Z, buffer), []).
Proof.
  intros H. unfold try_read.
  destruct (Z.ltb_spec fd 0); [reflexivity|lia].
Qed.

Lemma next_value_failed env fd buffer :
  (fd < 0)%Z \/ (read_result (answer env) <= 0)%Z ->
  next_value env fd buffer = buffer.
Proof.
  intros H. unfold next_value.
  destruct (Z.ltb_spec fd 0); [reflexivity|].
  destruct (Z.gtb_spec (read_result (answer env)) 0); [lia|reflexivity].
Qed.

Lemma value_kept w i m a n :
  (forall j, a <= j < a + n ->
     (channel_fd w i m < 0)%Z \/
     (read_result (answer (os_read w j (channel_fd w i m))) <= 0)%Z) ->
  val_of m (sensor_at w (a + n) i) = val_of m (sensor_at w a i).
Proof.
  induction n as [|n IH]; intros H.
  - rewrite Nat.add_0_r. reflexivity.
  - rewrite Nat.add_succ_r, sensor_at_val, next_value_failed by (apply H; lia).
    apply IH. intros j Hj. apply H. lia.
Qed.

(** C4.  A poll on a negative descriptor returns 0 at once: no system call
    is made and the buffer is as it was.  A poll whose [read] returns zero
    or less returns 0 and leaves the buffer as it was ([read_result] is
    what [read] returns).  Over any number of cycles in which every poll of
    a channel is of one of these two kinds, the buffer of the channel stays
    the same. *)
Theorem C4_failed_poll_keeps_value (env : read_env) (fd : Z) (buffer : list ascii)
  (w : os) (i : nat) (m : metric) (a n : nat) :
  ((fd < 0)%Z -> try_read env fd buffer = Some ((0%Z, buffer), [])) /\
  (forall bytes temp_buf calls,
     (0 <= fd)%Z ->
     sys_read (answer env) fd (local_array (garbage env) BUF_SIZE) (BUF_SIZE - 1) =
     Some ((bytes, temp_buf), calls) ->
     (bytes <= 0)%Z ->
     try_read env fd buffer = Some ((0%Z, buffer), calls)) /\
  (exists temp_buf,
     sys_read (answer env) fd (local_array (garbage env) BUF_SIZE) (BUF_SIZE - 1) =
     Some ((read_result (answer env), temp_buf),
           [Read fd (BUF_SIZE - 1) (read_result (answer env))])) /\
  (i < MAX_SENSORS -> no_quit_before w (a + n) ->
   (forall j, a <= j < a + n ->
      (channel_fd w i m < 0)%Z \/
      (read_result (answer (os_read w j (channel_fd w i m))) <= 0)%Z) ->
   exists before after calls1 calls2 s1 s2,
     main w a = Some ((Running, before), calls1) /\
     main w (a + n) = Some ((Running, after), calls2) /\
     nth_error before i = Some s1 /\
     nth_error after i = Some s2 /\
     val_of m s2 = val_of m s1).
Proof.
  split; [apply try_read_unavailable|].
  split.
  { intros bytes temp_buf calls Hfd Hsys Hbytes. unfold try_read.
    destruct (Z.ltb_spec fd 0); [lia|].
    rewrite Hsys. cbn [bind].
    destruct (Z.gtb_spec bytes 0); [lia|].
    cbn [ret]. rewrite app_nil_r. reflexivity. }
  split.
  { destruct (sys_read_result env fd) as (tb & Hsys & _). exists tb. exact Hsys. }
  intros Hi Hq Hfail.
  assert (Hq' : no_quit_before w a) by (intros j Hj; apply Hq; lia).
  eexists _, _, _, _, _, _.
  split; [apply (main_running _ _ Hq')|].
  split; [apply (main_running _ _ Hq)|].
  split; [apply state_at_nth, Hi|].
  split; [apply state_at_nth, Hi|].
  apply value_kept, Hfail.
Qed.

Lemma C4_failed_poll_keeps_value_witness :
  try_read (os_read silent_os 0 (-1)) (-1) (buffer_of "21.5") =
    Some ((0%Z, buffer_of "21.5"), []) /\
  try_read (os_read silent_os 0 4) 4 (buffer_of "21.5") =
    Some ((0%Z, buffer_of "21.5"), [Read 4 (BUF_SIZE - 1) (-1)]) /\
  exists before after calls1 calls2 s1 s2,
    main silent_os 1 = Some ((Running, before), calls1) /\
    main silent_os (1 + 3) = Some ((Running, after), calls2) /\
    nth_error before 2 = Some s1 /\
    nth_error after 2 = Some s2 /\
    val_of Temp s2 = val_of Temp s1.
Proof.
  destruct (C4_failed_poll_keeps_value (os_read silent_os 0 (-1)) (-1)
              (buffer_of "21.5") silent_os 2 Temp 1 3) as (H1 & _ & _ & H3).
  destruct (C4_failed_poll_keeps_value (os_read silent_os 0 4) 4
              (buffer_of "21.5") silent_os 2 Temp 1 3) as (_ & H2 & _).
  split; [apply H1; lia|].
  split; [eapply H2; [lia|reflexivity|lia]|].
  apply H3.
  - unfold MAX_SENSORS. lia.
  - intros j _. reflexivity.
  - intros j _. left. reflexivity.
Defined.

(** ** Line-breaks *)








Lemma line_text_spec d : line_text d = spec_cached d.
Proof.
  unfold spec_cached. induction d as [|c d IH]; [reflexivity|].
  cbn [line_text until_nul]. destruct (is_nul c); [reflexivity|].
  cbn [orb before_line_break]. destruct (is_lf c); [reflexivity|].
  rewrite IH. reflexivity.
Qed.


Lemma try_read_data env fd buffer :
  List.length buffer = BUF_SIZE -> (0 <= fd)%Z ->
  (0 < read_result (answer env))%Z ->
  try_read env fd buffer =
  Some ((1%Z, stored (delivered (answer env))),
        [Read fd (BUF_SIZE - 1) (read_result (answer env))]).
Proof.
  intros Hb Hfd Hpos. rewrite (try_read_spec env fd buffer Hb).
  unfold next_result, next_value, read_calls.
  destruct (Z.ltb_spec fd 0); [lia|].
  destruct (Z.gtb_spec (read_result (answer env)) 0); [reflexivity|lia].
Qed.



(** ** Bounds *)

Lemma sys_read_bounds env fd :
  exists bytes temp_buf calls,
    sys_read (answer env) fd (local_array (garbage env) BUF_SIZE) (BUF_SIZE - 1) =
    Some ((bytes, temp_buf), calls) /\
    (bytes <= Z.of_nat BUF_SIZE - 1)%Z /\
    List.length temp_buf = BUF_SIZE /\
    ((0 < bytes)%Z ->
     exists temp_buf',
       store temp_buf (Z.to_nat bytes) NUL = Some temp_buf' /\
       List.length temp_buf' = BUF_SIZE).
Proof.
  destruct (answer env) as [|payload].
  - eexists _, _, _. split; [reflexivity|].
    split; [cbn; lia|]. split; [apply local_array_length|]. lia.
  - rewrite sys_read_data by apply local_array_length.
    set (d := firstn (BUF_SIZE - 1) payload).
    assert (Hd : List.length d <= BUF_SIZE - 1) by apply firstn_le_length.
    assert (Hlen : List.length (d ++ skipn (List.length d)
                                  (local_array (garbage env) BUF_SIZE)) = BUF_SIZE).
    { rewrite length_app, length_skipn, local_array_length.
      unfold BUF_SIZE in *. lia. }
    eexists _, _, _. split; [reflexivity|].
    split; [unfold BUF_SIZE in *; lia|]. split; [exact Hlen|].
    intros _. rewrite Nat2Z.id.
    destruct (store (d ++ skipn (List.length d) (local_array (garbage env) BUF_SIZE))
                (List.length d) NUL) as [tb|] eqn:E.
    + exists tb. split; [reflexivity|].
      rewrite (store_length _ _ _ _ _ E). exact Hlen.
    + exfalso. revert E. apply store_in_bounds. rewrite Hlen.
      unfold BUF_SIZE in *. lia.
Qed.

(** C10.  After startup, after every pass of polls and in every state of
    the program, each of the three buffers of each of the sixteen sensors
    has [BUF_SIZE] bytes and holds a NUL-terminated string of at most
    [BUF_SIZE - 1] characters.  [try_read] on a buffer of [BUF_SIZE] bytes
    never writes outside an array: [read] returns at most [BUF_SIZE - 1],
    the terminator is stored at that index of [temp_buf], and the buffer
    that comes back has [BUF_SIZE] bytes. *)
Theorem C10_buffers_stay_terminated (w : os) (fuel : nat) (env : read_env)
  (fd : Z) (buffer : list ascii) :
  List.length buffer = BUF_SIZE ->
  (exists sensors calls, startup w = Some (sensors, calls) /\ sane_all sensors) /\
  (forall k sensors,
     sane_all sensors ->
     exists sensors' calls,
       poll_all w k sensors = Some (sensors', calls) /\ sane_all sensors') /\
  (exists st sensors calls,
     main w fuel = Some ((st, sensors), calls) /\ sane_all sensors) /\
  (exists r buffer' calls,
     try_read env fd buffer = Some ((r, buffer'), calls) /\
     List.length buffer' = BUF_SIZE /\
     (r = 1%Z -> holds_string buffer')) /\
  (exists bytes temp_buf calls,
     sys_read (answer env) fd (local_array (garbage env) BUF_SIZE) (BUF_SIZE - 1) =
     Some ((bytes, temp_buf), calls) /\
     (bytes <= Z.of_nat BUF_SIZE - 1)%Z /\
     List.length temp_buf = BUF_SIZE /\
     ((0 < bytes)%Z ->
      exists temp_buf',
        store temp_buf (Z.to_nat bytes) NUL = Some temp_buf' /\
        List.length temp_buf' = BUF_SIZE)).
Proof.
  intros Hb. split; [|split; [|split; [|split]]].
  - rewrite startup_spec. eexists _, _. split; [reflexivity|apply sane_all_opened].
  - intros k sensors H. pose proof H as [Hlen Hs].
    rewrite (poll_all_spec w k sensors Hlen (Forall_impl _ sane_sized Hs)).
    eexists _, _. split; [reflexivity|apply sane_all_polled, H].
  - rewrite main_spec. unfold main_run.
    pose proof (run_sane w fuel 0 (opened w) (sane_all_opened w)) as H.
    destruct (run w fuel 0 (opened w)) as [[st sensors] t].
    eexists _, _, _. split; [reflexivity|exact H].
  - rewrite (try_read_spec env fd buffer Hb). eexists _, _, _.
    split; [reflexivity|]. split; [apply next_value_length, Hb|].
    unfold next_result, next_value.
    destruct (fd <? 0)%Z; [discriminate|].
    destruct (read_result (answer env) >? 0)%Z; [|discriminate].
    intros _. apply holds_string_stored, delivered_length.
  - apply sys_read_bounds.
Qed.

Lemma C10_buffers_stay_terminated_witness :
  (exists st sensors calls,
     main demo_os 3 = Some ((st, sensors), calls) /\ sane_all sensors) /\
  (exists r buffer' calls,
     try_read (os_read demo_os 0 6) 6 (buffer_of "21.5") =
     Some ((r, buffer'), calls) /\
     List.length buffer' = BUF_SIZE /\
     (r = 1%Z -> holds_string buffer')).
Proof.
  destruct (C10_buffers_stay_terminated demo_os 3 (os_read demo_os 0 6) 6
              (buffer_of "21.5")) as (_ & _ & H3 & H4 & _).
  - reflexivity.
  - split; [exact H3|exact H4].
Defined.

(** ** Online and offline over the cycles *)

Lemma next_value_reading w k fd b :
  next_value (os_read w k fd) fd b =
  match reading w k fd with
  | Some t => t ++ repeat NUL (BUF_SIZE - List.length t)
  | None => b
  end.
Proof.
  unfold next_value, reading. destruct (fd <? 0)%Z; [reflexivity|].
  destruct (read_result (answer (os_read w k fd)) >? 0)%Z; reflexivity.
Qed.

Lemma reading_clean w k fd t : reading w k fd = Some t -> Forall clean t.
Proof.
  unfold reading. destruct (fd <? 0)%Z; [discriminate|].
  destruct (read_result (answer (os_read w k fd)) >? 0)%Z; [|discriminate].
  intros H. inversion H. apply line_text_clean.
Qed.

Lemma reading_fd w k fd t : reading w k fd = Some t -> (0 <= fd)%Z.
Proof.
  unfold reading. destruct (Z.ltb_spec fd 0); [discriminate|lia].
Qed.

Lemma starts_text_kept w i k n :
  k < n ->
  (exists c t, reading w k (channel_fd w i Batt) = Some (c :: t)) ->
  (forall j, k < j < n -> reading w j (channel_fd w i Batt) <> Some []) ->
  starts_text (val_batt (sensor_at w n i)).
Proof.
  intros Hkn Hk Hlater.
  assert (Hstep : forall j b,
            (exists c t, reading w j (channel_fd w i Batt) = Some (c :: t)) \/
            (reading w j (channel_fd w i Batt) <> Some [] /\ starts_text b) ->
            starts_text (next_value (os_read w j (channel_fd w i Batt))
                           (channel_fd w i Batt) b)).
  { intros j b Hj. rewrite next_value_reading.
    destruct (reading w j (channel_fd w i Batt)) as [[|c t]|] eqn:E.
    - destruct Hj as [(c & t & Hc)|[Hne _]]; congruence.
    - apply reading_clean in E. inversion E as [|? ? [Hn _] _]; subst.
      exists c, (t ++ repeat NUL (BUF_SIZE - List.length (c :: t))).
      split; [reflexivity|exact Hn].
    - destruct Hj as [(c & t & Hc)|[_ Hb]]; [discriminate|exact Hb]. }
  induction n as [|n IH]; [lia|].
  change (val_batt (sensor_at w (S n) i))
    with (val_of Batt (sensor_at w (S n) i)).
  rewrite sensor_at_val. apply Hstep.
  destruct (Nat.eq_dec k n) as [->|Hne].
  - left. exact Hk.
  - right. split; [apply Hlater; lia|].
    apply IH; [lia|]. intros j Hj. apply Hlater. lia.
Qed.

(** C3, as the code has it.  Once a battery read has stored a string that
    is not empty, the sensor is online in every later cycle up to the next
    battery read that stores the empty string, whatever the temperature
    and light channels do and whether or not they could be opened. *)
Theorem C3_online_after_reading (w : os) (i k n : nat) :
  i < MAX_SENSORS -> k < n -> no_quit_before w n ->
  (exists c t, reading w k (channel_fd w i Batt) = Some (c :: t)) ->
  (forall j, k < j < n -> reading w j (channel_fd w i Batt) <> Some []) ->
  exists sensors calls s,
    main w n = Some ((Running, sensors), calls) /\
    nth_error sensors i = Some s /\
    is_offline s = Some false.
Proof.
  intros Hi Hkn Hq Hk Hlater.
  exists (state_at w n), (startup_calls w ++ snd (run w n 0 (opened w))),
    (sensor_at w n i).
  split; [apply main_running, Hq|].
  split; [apply state_at_nth, Hi|].
  destruct (starts_text_kept w i k n Hkn Hk Hlater) as (c & rest & Hb & Hc).
  unfold is_offline.
  change (fd_batt (sensor_at w n i)) with (fd_of Batt (sensor_at w n i)).
  rewrite sensor_at_fd, Hb.
  destruct Hk as (c' & t' & Hr). apply reading_fd in Hr.
  destruct (Z.ltb_spec (channel_fd w i Batt) 0); [lia|].
  cbn. rewrite Hc. reflexivity.
Qed.

Lemma C3_online_after_reading_witness :
  exists sensors calls s,
    main demo_os 1 = Some ((Running, sensors), calls) /\
    nth_error sensors 3 = Some s /\
    is_offline s = Some false.
Proof.
  apply (C3_online_after_reading demo_os 3 0 1).
  - unfold MAX_SENSORS. lia.
  - lia.
  - intros j Hj. assert (j = 0) as -> by lia. reflexivity.
  - eexists _, _. reflexivity.
  - intros j Hj. lia.
Defined.

(** C3 as stated fails: the battery device of sensor 0 is open and its read
    in cycle 0 returns one byte, a line-break; [try_read] returns 1 and the
    row of sensor 0 is drawn OFFLINE. *)
Lemma C3_counterexample :
  exists sensors calls s,
    main blank_line_os 1 = Some ((Running, sensors), calls) /\
    nth_error sensors 0 = Some s /\
    fd_batt s = 3%Z /\
    reads calls = [(3%Z, BUF_SIZE - 1, 1%Z)] /\
    try_read (os_read blank_line_os 0 3) 3 (repeat NUL BUF_SIZE) =
      Some ((1%Z, val_batt s), [Read 3 (BUF_SIZE - 1) 1]) /\
    is_offline s = Some true /\
    nth_error (prints calls) 4 =
      Some (5, 12, "OFFLINE       OFFLINE       OFFLINE     "%string).
Proof.
  eexists _, _, _.
  split; [vm_compute; reflexivity|].
  split; [reflexivity|].
  repeat split.
Qed.

(** ** Quitting *)

Lemma flat_map_ext_in A B (f g : A -> list B) l :
  (forall a, In a l -> f a = g a) -> flat_map f l = flat_map g l.
Proof.
  induction l as [|x l IH]; intros H; [reflexivity|].
  cbn [flat_map]. rewrite (H x (or_introl eq_refl)), IH; [reflexivity|].
  intros a Ha. apply H. right. exact Ha.
Qed.

Lemma map_filter_flat_map A B C (f : A -> list B) (p : B -> bool) (h : B -> C) l :
  map h (filter p (flat_map f l)) = flat_map (fun a => map h (filter p (f a))) l.
Proof.
  induction l as [|x l IH]; [reflexivity|].
  cbn [flat_map]. rewrite filter_app, map_app, IH. reflexivity.
Qed.

Lemma close_calls_spec fd : close_calls fd = map Close (open_ones [fd]).
Proof.
  unfold close_calls, open_ones. cbn [filter].
  destruct (fd >=? 0)%Z; reflexivity.
Qed.

Lemma cleanup_calls_spec w n :
  cleanup_calls (state_at w n) = map Close (open_ones (opened_fds w)) ++ [Endwin].
Proof.
  unfold cleanup_calls, opened_fds, open_ones. f_equal.
  rewrite map_filter_flat_map. apply flat_map_ext_in.
  intros i Hi. apply in_seq in Hi. unfold at_index.
  rewrite state_at_nth by lia. unfold sensor_close_calls.
  change (fd_batt (sensor_at w n i)) with (fd_of Batt (sensor_at w n i)).
  change (fd_temp (sensor_at w n i)) with (fd_of Temp (sensor_at w n i)).
  change (fd_light (sensor_at w n i)) with (fd_of Light (sensor_at w n i)).
  rewrite !sensor_at_fd, !close_calls_spec. unfold open_ones. cbn [map filter].
  destruct (channel_fd w i Batt >=? 0)%Z, (channel_fd w i Temp >=? 0)%Z,
    (channel_fd w i Light >=? 0)%Z; reflexivity.
Qed.

Lemma run_stops_iff w fuel : forall k sensors,
  fst (fst (run w fuel k sensors)) = Stopped <->
  exists j, k <= j < k + fuel /\ is_quit (os_getch w j) = true.
Proof.
  induction fuel as [|fuel IH]; intros k sensors.
  - cbn. split; [discriminate|]. intros (j & Hj & _). lia.
  - cbn [run]. destruct (is_quit (os_getch w k)) eqn:E.
    + cbn. split; [|reflexivity]. intros _. exists k. split; [lia|exact E].
    + cbn [fst]. rewrite IH. split; intros (j & Hj & Hq).
      * exists j. split; [lia|exact Hq].
      * exists j. split; [|exact Hq].
        destruct (Nat.eq_dec j k) as [->|Hne]; [congruence|lia].
Qed.

Lemma sleeps_app t1 t2 : sleeps (t1 ++ t2) = sleeps t1 + sleeps t2.
Proof.
  induction t1 as [|e t1 IH]; [reflexivity|].
  destruct e; cbn [app sleeps]; rewrite IH; reflexivity.
Qed.

Lemma sleeps_reads sensors w k : sleeps (flat_map (poll_calls w k) sensors) = 0.
Proof.
  induction sensors as [|s sensors IH]; [reflexivity|].
  cbn [flat_map]. rewrite sleeps_app, IH. unfold poll_calls, read_calls.
  destruct (fd_batt s <? 0)%Z, (fd_temp s <? 0)%Z, (fd_light s <? 0)%Z;
    reflexivity.
Qed.

Lemma sleeps_rows sensors l :
  sleeps (flat_map (at_index row_calls sensors) l) = 0.
Proof.
  induction l as [|i l IH]; [reflexivity|].
  cbn [flat_map]. rewrite sleeps_app, IH. unfold at_index.
  destruct (nth_error sensors i); reflexivity.
Qed.

Lemma sleeps_cycle w k sensors : sleeps (cycle_calls w k sensors) = 1.
Proof.
  unfold cycle_calls, frame. cbn [sleeps].
  rewrite !sleeps_app, sleeps_reads, sleeps_rows. reflexivity.
Qed.

Lemma sleeps_run w fuel : forall k sensors,
  (forall j, k <= j < k + fuel -> is_quit (os_getch w j) = false) ->
  sleeps (snd (run w fuel k sensors)) = fuel.
Proof.
  induction fuel as [|fuel IH]; intros k sensors H; [reflexivity|].
  cbn [run]. rewrite (H k) by lia. cbn [snd].
  rewrite sleeps_app, sleeps_cycle, IH; [reflexivity|].
  intros j Hj. apply H. lia.
Qed.

Lemma sleeps_startup w : sleeps (startup_calls w) = 0.
Proof.
  unfold startup_calls, curses_calls. destruct (os_has_colors w); reflexivity.
Qed.

Lemma loop_blind B (sel : event -> list B) t :
  Forall (fun e => loop_call e = true) t ->
  (forall e, loop_call e = true -> sel e = []) ->
  flat_map sel t = [].
Proof.
  intros Ht Hsel. induction Ht as [|e t He _ IH]; [reflexivity|].
  cbn [flat_map]. rewrite (Hsel e He), IH. reflexivity.
Qed.

Lemma poll_loop_calls w k s : Forall (fun e => loop_call e = true) (poll_calls w k s).
Proof.
  unfold poll_calls, read_calls.
  destruct (fd_batt s <? 0)%Z, (fd_temp s <? 0)%Z, (fd_light s <? 0)%Z;
    repeat constructor.
Qed.

Lemma frame_loop_calls sensors : Forall (fun e => loop_call e = true) (frame sensors).
Proof.
  unfold frame. rewrite !Forall_app. split; [repeat constructor|].
  split; [|repeat constructor].
  apply Forall_flat_map, Forall_forall. intros i _. unfold at_index.
  destruct (nth_error sensors i); repeat constructor.
Qed.

Lemma run_loop_calls w fuel : forall k sensors,
  Forall (fun e => loop_call e = true) (snd (run w fuel k sensors)).
Proof.
  induction fuel as [|fuel IH]; intros k sensors; [constructor|].
  cbn [run]. destruct (is_quit (os_getch w k)); [repeat constructor|].
  cbn [snd]. apply Forall_app. split; [|apply IH].
  unfold cycle_calls. constructor; [reflexivity|].
  rewrite !Forall_app. split; [|split; [apply frame_loop_calls|repeat constructor]].
  apply Forall_flat_map, Forall_forall. intros s _. apply poll_loop_calls.
Qed.

Lemma opens_startup w : opens (startup_calls w) = opened_fds w.
Proof.
  unfold startup_calls, curses_calls. destruct (os_has_colors w); reflexivity.
Qed.

Lemma closes_startup w : closes (startup_calls w) = [].
Proof.
  unfold startup_calls, curses_calls. destruct (os_has_colors w); reflexivity.
Qed.

Lemma is_quit_spec ch : is_quit ch = true <-> ch = 113%Z \/ ch = 81%Z.
Proof. unfold is_quit. rewrite orb_true_iff, !Z.eqb_eq. reflexivity. Qed.

(** C5.  When the first [q] or [Q] arrives in cycle [q], the program has
    run [q] full cycles (poll, draw, sleep) and closed nothing; it reads
    the key, and then only closes: one [close] for every descriptor that an
    [open] call of the run returned as zero or more, in the order of
    opening, none for a negative one, then [endwin].  The program never
    faults, whatever the devices answer, and it stops exactly when one of
    the two quit keys has been read. *)
Theorem C5_quit_stops_and_closes (w : os) (q fuel : nat) :
  no_quit_before w q -> is_quit (os_getch w q) = true -> q < fuel ->
  (exists sensors calls,
     main w q = Some ((Running, sensors), calls) /\
     sleeps calls = q /\
     opens calls = opened_fds w /\
     closes calls = [] /\
     main w fuel =
     Some ((Stopped, sensors),
           calls ++ Getch (os_getch w q)
             :: map Close (open_ones (opens calls)) ++ [Endwin])) /\
  (os_getch w q = 113%Z \/ os_getch w q = 81%Z) /\
  (forall n, exists st sensors calls,
     main w n = Some ((st, sensors), calls) /\
     (st = Stopped <->
      exists j, j < n /\ (os_getch w j = 113%Z \/ os_getch w j = 81%Z))).
Proof.
  intros Hno Hq Hf. split; [|split].
  - exists (state_at w q), (startup_calls w ++ snd (run w q 0 (opened w))).
    assert (Ho : opens (startup_calls w ++ snd (run w q 0 (opened w))) =
                 opened_fds w).
    { unfold opens. rewrite flat_map_app. fold (opens (startup_calls w)).
      rewrite opens_startup, (loop_blind _ _ _ (run_loop_calls w q 0 (opened w)));
        [apply app_nil_r|].
      intros [] He; try discriminate; reflexivity. }
    split; [apply main_running, Hno|].
    split.
    { rewrite sleeps_app, sleeps_startup, sleeps_run; [reflexivity|].
      intros j Hj. apply Hno. lia. }
    split; [exact Ho|].
    split.
    { unfold closes. rewrite flat_map_app. fold (closes (startup_calls w)).
      rewrite closes_startup, (loop_blind _ _ _ (run_loop_calls w q 0 (opened w)));
        [reflexivity|].
      intros [] He; try discriminate; reflexivity. }
    rewrite Ho, (main_stopped w q fuel Hno Hq Hf), cleanup_calls_spec.
    reflexivity.
  - apply is_quit_spec, Hq.
  - intros n. rewrite main_spec. unfold main_run.
    pose proof (run_stops_iff w n 0 (opened w)) as H.
    destruct (run w n 0 (opened w)) as [[st sensors] t].
    cbn [fst snd] in *. eexists _, _, _. split; [reflexivity|].
    rewrite H. split; intros (j & Hj & Hk); exists j;
      (split; [lia|apply is_quit_spec; exact Hk]).
Qed.

Lemma C5_quit_stops_and_closes_witness :
  exists sensors calls,
    main demo_os 1 = Some ((Running, sensors), calls) /\
    sleeps calls = 1 /\
    opens calls = opened_fds demo_os /\
    closes calls = [] /\
    main demo_os 4 =
    Some ((Stopped, sensors),
          calls ++ Getch (os_getch demo_os 1)
            :: map Close (open_ones (opens calls)) ++ [Endwin]).
Proof.
  destruct (C5_quit_stops_and_closes demo_os 1 4) as (H & _).
  - intros j Hj. assert (j = 0) as -> by lia. reflexivity.
  - reflexivity.
  - lia.
  - exact H.
Defined.

(** ** What a frame prints *)

Lemma prints_app t1 t2 : prints (t1 ++ t2) = prints t1 ++ prints t2.
Proof.
  induction t1 as [|e t1 IH]; [reflexivity|].
  destruct e; cbn [app prints]; rewrite IH; reflexivity.
Qed.

Lemma prints_rows sensors l :
  prints (flat_map (at_index row_calls sensors) l) =
  flat_map (at_index row_prints sensors) l.
Proof.
  induction l as [|i l IH]; [reflexivity|].
  cbn [flat_map]. rewrite prints_app, IH. unfold at_index.
  destruct (nth_error sensors i); reflexivity.
Qed.

Lemma at_index_mapi A (g : nat -> sensor_data -> list A) rest : forall pre,
  flat_map (at_index g (pre ++ rest)) (seq (List.length pre) (List.length rest)) =
  List.concat (mapi (List.length pre) g rest).
Proof.
  induction rest as [|x rest IH]; intros pre; [reflexivity|].
  cbn [List.length seq flat_map mapi List.concat].
  unfold at_index at 1. rewrite nth_error_app2, Nat.sub_diag by lia.
  cbn [nth_error]. f_equal.
  specialize (IH (pre ++ [x])). rewrite <- app_assoc, length_app in IH.
  cbn [app List.length] in IH. rewrite Nat.add_1_r in IH. exact IH.
Qed.

Lemma mapi_combine A (g : nat -> sensor_data -> list A) l : forall a,
  List.concat (mapi a g l) =
  flat_map (fun p => g (fst p) (snd p)) (combine (seq a (List.length l)) l).
Proof.
  induction l as [|x l IH]; intros a; [reflexivity|].
  cbn [mapi List.concat List.length seq combine flat_map fst snd].
  rewrite IH. reflexivity.
Qed.

Lemma prints_frame sensors :
  List.length sensors = MAX_SENSORS ->
  prints (frame sensors) =
  head_prints
  ++ flat_map (fun p => row_prints (fst p) (snd p))
       (combine (seq 0 MAX_SENSORS) sensors)
  ++ foot_prints.
Proof.
  intros Hlen. unfold frame. rewrite !prints_app, prints_rows.
  pose proof (at_index_mapi _ row_prints sensors []) as E.
  cbn [app List.length] in E. rewrite Hlen in E.
  rewrite E, mapi_combine, Hlen. reflexivity.
Qed.

Lemma run_last_frame w fuel : forall k sensors,
  (forall j, k <= j < k + S fuel -> is_quit (os_getch w j) = false) ->
  exists before,
    snd (run w (S fuel) k sensors) =
    before ++ frame (snd (fst (run w (S fuel) k sensors))) ++ [Usleep 100000%Z].
Proof.
  induction fuel as [|fuel IH]; intros k sensors H.
  - cbn [run]. rewrite (H k) by lia. cbn [fst snd].
    exists (Getch (os_getch w k) :: flat_map (poll_calls w k) sensors).
    unfold cycle_calls. rewrite app_nil_r. reflexivity.
  - remember (S fuel) as f eqn:Ef. cbn [run]. rewrite (H k) by lia.
    cbn [fst snd].
    destruct (IH (S k) (map (polled w k) sensors)) as (before & Hb).
    { intros j Hj. apply H. lia. }
    rewrite Ef in Hb. rewrite Ef, Hb.
    exists (cycle_calls w k sensors ++ before).
    rewrite <- app_assoc. reflexivity.
Qed.

Lemma offline_unopened w n i :
  (channel_fd w i Batt < 0)%Z -> offline (sensor_at w n i) = true.
Proof.
  intros H. unfold offline.
  change (fd_batt (sensor_at w n i)) with (fd_of Batt (sensor_at w n i)).
  rewrite sensor_at_fd. destruct (Z.ltb_spec (channel_fd w i Batt) 0); [reflexivity|lia].
Qed.



(** ** Widths *)

Lemma string_length_app a b :
  String.length (a ++ b)%string = String.length a + String.length b.
Proof.
  induction a as [|c a IH]; [reflexivity|].
  cbn [append String.length]. rewrite IH. reflexivity.
Qed.

Lemma string_of_list_length l :
  String.length (string_of_list_ascii l) = List.length l.
Proof.
  induction l as [|c l IH]; [reflexivity|].
  cbn [string_of_list_ascii String.length List.length]. rewrite IH. reflexivity.
Qed.

Lemma fmt_left_length w s :
  String.length (fmt_left w s) = Nat.max w (String.length s).
Proof.
  unfold fmt_left, spaces.
  rewrite string_length_app, string_of_list_length, repeat_length. lia.
Qed.

Lemma shown_length b :
  holds_string b -> String.length (shown b) <= BUF_SIZE - 1.
Proof.
  intros [_ (t & Ht & Hlen)]. unfold shown.
  rewrite string_of_list_length, <- (c_chars_until_nul _ _ Ht). exact Hlen.
Qed.

Lemma id_label_length i : i < MAX_SENSORS -> String.length (id_label i) = 9.
Proof.
  unfold MAX_SENSORS. intros H.
  do 16 (destruct i as [|i]; [reflexivity|]). lia.
Qed.





(** C8, as the code has it.  A frame prints one row per sensor.  The column
    header is an id field of 8 characters and three value fields of 12,
    two spaces apart.  A row prints its label, which has 9 characters, at
    column 2, and at column 12 = 2 + 8 + 2 its three values two spaces
    apart, each left-aligned in a field of at least 12 characters: a
    value of up to 12 characters fills exactly 12, a longer one (a buffer
    holds up to 31) is printed whole. *)
Theorem C8_layout (sensors : list sensor_data) :
  sane_all sensors ->
  exists shown_frame,
    draw_ui sensors = Some (tt, shown_frame) /\
    prints shown_frame =
      head_prints
      ++ flat_map (fun p => [(5 + fst p, 2, id_label (fst p));
                             (5 + fst p, 12, values_text (snd p))])
           (combine (seq 0 MAX_SENSORS) sensors)
      ++ foot_prints /\
    HEADER = "ID        Battery(V)    Temp(C)       Light       "%string /\
    HEADER = (fmt_left 8 "ID" ++ "  " ++ fmt_left 12 "Battery(V)" ++ "  "
              ++ fmt_left 12 "Temp(C)" ++ "  " ++ fmt_left 12 "Light")%string /\
    String.length (fmt_left 8 "ID") = 8 /\
    String.length (fmt_left 12 "Battery(V)") = 12 /\
    String.length (fmt_left 12 "Temp(C)") = 12 /\
    String.length (fmt_left 12 "Light") = 12 /\
    (forall i, i < MAX_SENSORS -> String.length (id_label i) = 9) /\
    2 + ID_WIDTH + 2 = 12 /\
    Forall (fun s =>
              exists a b c,
                values_text s =
                (fmt_left 12 a ++ "  " ++ fmt_left 12 b ++ "  "
                 ++ fmt_left 12 c)%string /\
                String.length a <= BUF_SIZE - 1 /\
                String.length b <= BUF_SIZE - 1 /\
                String.length c <= BUF_SIZE - 1) sensors /\
    (forall v, String.length (fmt_left 12 v) = Nat.max 12 (String.length v)) /\
    String.length (fmt_left 12 "OFFLINE") = 12.
Proof.
  intros H. exists (frame sensors).
  split; [apply draw_ui_spec, H|].
  split; [apply prints_frame, H|].
  do 6 (split; [reflexivity|]).
  split; [apply id_label_length|].
  split; [reflexivity|].
  split; [|split; [apply fmt_left_length|reflexivity]].
  destruct H as [_ Hs]. eapply Forall_impl; [|exact Hs].
  intros s (Hb & Ht & Hl). unfold values_text.
  destruct (offline s).
  - exists "OFFLINE"%string, "OFFLINE"%string, "OFFLINE"%string.
    split; [reflexivity|]. cbn. lia.
  - exists (shown (val_batt s)), (shown (val_temp s)), (shown (val_light s)).
    split; [reflexivity|].
    repeat split; apply shown_length; assumption.
Qed.

Lemma C8_layout_witness :
  exists shown_frame,
    draw_ui (opened demo_os) = Some (tt, shown_frame) /\
    prints shown_frame =
      head_prints
      ++ flat_map (fun p => [(5 + fst p, 2, id_label (fst p));
                             (5 + fst p, 12, values_text (snd p))])
           (combine (seq 0 MAX_SENSORS) (opened demo_os))
      ++ foot_prints.
Proof.
  destruct (C8_layout (opened demo_os)) as (f & H1 & H2 & _).
  - split; [reflexivity|].
    unfold opened. apply Forall_map, Forall_forall. intros i _.
    repeat split; try reflexivity;
      (exists []; split; [reflexivity|cbn; lia]).
  - exists f. split; [exact H1|exact H2].
Defined.

(** C8 as stated fails: in the first frame of a run whose battery device
    of sensor 0 delivers thirteen characters, the label of row 0 has nine
    characters, not eight, and the battery field of row 0 has thirteen, not
    twelve, so that the whole values text has 41 characters, not 40. *)
Lemma C8_counterexample :
  exists sensors calls values,
    main wide_os 1 = Some ((Running, sensors), calls) /\
    nth_error (prints calls) 3 = Some (5, 2, "Sensor 00"%string) /\
    String.length "Sensor 00" = 9 /\
    ID_WIDTH = 8 /\
    nth_error (prints calls) 4 = Some (5, 12, values) /\
    values = (fmt_left 12 "0123456789abc" ++ "  " ++ fmt_left 12 "" ++ "  "
              ++ fmt_left 12 "")%string /\
    String.length (fmt_left 12 "0123456789abc") = 13 /\
    String.length values = 41 /\
    3 * VALUE_WIDTH + 4 = 40.
Proof.
  eexists _, _, _. split; [vm_compute; reflexivity|].
  repeat split.
Qed.

(** * Further properties of the program *)

(** ** open_sensor_dev *)

Lemma substring_length n s : String.length (substring 0 n s) <= n.
Proof.
  revert s. induction n as [|n IH]; intros [|c s]; cbn; try lia.
  specialize (IH s). lia.
Qed.

Lemma find_channel_path i m :
  i < MAX_SENSORS -> find_channel (dev_path i (type_name m)) = Some (i, m).
Proof.
  unfold MAX_SENSORS. intros H.
  do 16 (destruct i as [|i]; [destruct m; reflexivity|]). lia.
Qed.

Lemma dev_path_whole i m :
  i < MAX_SENSORS ->
  dev_path i (type_name m) = ("/dev/lunix" ++ fmt_d i ++ "-" ++ type_name m)%string.
Proof.
  unfold MAX_SENSORS. intros H.
  do 16 (destruct i as [|i]; [destruct m; reflexivity|]). lia.
Qed.

(** X1.  [open_sensor_dev] makes one [open] call and returns its result as
    it is, negative or not.  The path never has more than 63 characters.
    For the sixteen sensors and three types of the program the path is the
    whole name /dev/lunix<id>-<type>, and two different channels never get
    the same path. *)
Theorem X1_open_sensor_dev_paths (w : os) (sensor_id : nat) (type : string)
  (i j : nat) (m m' : metric) :
  (exists path,
     open_sensor_dev w sensor_id type =
       Some (os_open w path, [Open path (os_open w path)]) /\
     String.length path <= 63) /\
  (i < MAX_SENSORS ->
   open_sensor_dev w i (type_name m) =
     Some (os_open w ("/dev/lunix" ++ fmt_d i ++ "-" ++ type_name m)%string,
           [Open ("/dev/lunix" ++ fmt_d i ++ "-" ++ type_name m)%string
              (os_open w ("/dev/lunix" ++ fmt_d i ++ "-" ++ type_name m)%string)])) /\
  (i < MAX_SENSORS -> j < MAX_SENSORS ->
   dev_path i (type_name m) = dev_path j (type_name m') -> i = j /\ m = m').
Proof.
  split; [|split].
  - eexists. split; [reflexivity|]. apply substring_length.
  - intros Hi. rewrite <- (dev_path_whole i m Hi). reflexivity.
  - intros Hi Hj E.
    pose proof (find_channel_path i m Hi) as H1.
    rewrite E, (find_channel_path j m' Hj) in H1.
    inversion H1. auto.
Qed.

Lemma X1_open_sensor_dev_paths_witness :
  open_sensor_dev demo_os 3 "batt" =
    Some (5%Z, [Open "/dev/lunix3-batt" 5]) /\
  (3 = 3 /\ Batt = Batt).
Proof.
  destruct (X1_open_sensor_dev_paths demo_os 0 "" 3 3 Batt Batt)
    as (_ & H2 & H3).
  split.
  - apply H2. unfold MAX_SENSORS. lia.
  - apply H3; [unfold MAX_SENSORS; lia|unfold MAX_SENSORS; lia|reflexivity].
Defined.

(** ** The shape of a run *)

Lemma state_at_in w k s :
  In s (state_at w k) -> exists i, i < MAX_SENSORS /\ s = sensor_at w k i.
Proof.
  unfold state_at. intros H. apply in_map_iff in H.
  destruct H as (i & <- & Hi). apply in_seq in Hi.
  exists i. split; [lia|reflexivity].
Qed.

Lemma run_state_at w fuel : forall k,
  exists q, snd (fst (run w fuel k (state_at w k))) = state_at w q.
Proof.
  induction fuel as [|fuel IH]; intros k; [exists k; reflexivity|].
  cbn [run]. destruct (is_quit (os_getch w k)); [exists k; reflexivity|].
  cbn [fst snd]. rewrite <- state_at_succ. apply IH.
Qed.

Lemma run_cycles w fuel : forall k,
  (forall j, k <= j < k + fuel -> is_quit (os_getch w j) = false) ->
  snd (run w fuel k (state_at w k)) =
  flat_map (fun j => cycle_calls w j (state_at w j)) (seq k fuel).
Proof.
  induction fuel as [|fuel IH]; intros k H; [reflexivity|].
  cbn [run seq flat_map]. rewrite (H k) by lia. cbn [snd].
  rewrite <- state_at_succ, IH; [reflexivity|].
  intros j Hj. apply H. lia.
Qed.

Lemma read_calls_spec w k fd :
  read_calls (os_read w k fd) fd =
  map (fun fd => Read fd (BUF_SIZE - 1) (read_result (answer (os_read w k fd))))
    (open_ones [fd]).
Proof.
  unfold read_calls, open_ones. cbn [filter].
  rewrite Z.geb_leb.
  destruct (Z.ltb_spec fd 0), (Z.leb_spec 0 fd); try lia; reflexivity.
Qed.

Lemma poll_calls_state_at w k :
  flat_map (poll_calls w k) (state_at w k) = cycle_reads w k.
Proof.
  unfold cycle_reads, opened_fds, open_ones, state_at.
  rewrite map_filter_flat_map, flat_map_concat_map, map_map,
    <- flat_map_concat_map.
  apply flat_map_ext. intros i. unfold poll_calls.
  change (fd_batt (sensor_at w k i)) with (fd_of Batt (sensor_at w k i)).
  change (fd_temp (sensor_at w k i)) with (fd_of Temp (sensor_at w k i)).
  change (fd_light (sensor_at w k i)) with (fd_of Light (sensor_at w k i)).
  rewrite !sensor_at_fd, !read_calls_spec. unfold open_ones. cbn [map filter].
  destruct (channel_fd w i Batt >=? 0)%Z, (channel_fd w i Temp >=? 0)%Z,
    (channel_fd w i Light >=? 0)%Z; reflexivity.
Qed.

Lemma cycle_calls_state_at w k :
  cycle_calls w k (state_at w k) =
  Getch (os_getch w k) :: cycle_reads w k
    ++ frame (state_at w (S k)) ++ [Usleep 100000%Z].
Proof.
  unfold cycle_calls. rewrite poll_calls_state_at, <- state_at_succ. reflexivity.
Qed.

Lemma main_running_cycles w n :
  no_quit_before w n ->
  main w n =
  Some ((Running, state_at w n),
        startup_calls w
        ++ flat_map (fun j => cycle_calls w j (state_at w j)) (seq 0 n)).
Proof.
  intros H. rewrite (main_running w n H). do 3 f_equal.
  rewrite <- state_at_zero. apply run_cycles.
  intros j Hj. apply H. lia.
Qed.

Lemma channel_fd_in w i m : i < MAX_SENSORS -> In (channel_fd w i m) (opened_fds w).
Proof.
  intros H. unfold opened_fds. apply in_flat_map. exists i.
  split; [apply in_seq; lia|]. apply in_map. destruct m; cbn; auto.
Qed.

Lemma read_result_bounds r :
  (-1 <= read_result r <= Z.of_nat (BUF_SIZE - 1))%Z.
Proof.
  destruct r as [|payload]; [cbn; lia|].
  pose proof (delivered_length (RData payload)). unfold read_result. lia.
Qed.

(** A property of all calls of a run follows from the property of the calls
    of startup, of one cycle in any state and of the cleanup. *)
Lemma main_run_Forall (P : event -> Prop) w fuel :
  Forall P (startup_calls w) ->
  (forall k, Forall P (cycle_calls w k (state_at w k))) ->
  (forall ch, P (Getch ch)) ->
  (forall k, Forall P (cleanup_calls (state_at w k))) ->
  Forall P (snd (main_run w fuel)).
Proof.
  intros Hs Hc Hg Hcl. unfold main_run. cbn [snd].
  assert (Hrun : forall fuel k, Forall P (snd (run w fuel k (state_at w k)))).
  { clear fuel. induction fuel as [|fuel IH]; intros k; [constructor|].
    cbn [run]. destruct (is_quit (os_getch w k)).
    - repeat constructor. apply Hg.
    - cbn [snd]. apply Forall_app. split; [apply Hc|].
      rewrite <- state_at_succ. apply IH. }
  rewrite <- state_at_zero. rewrite !Forall_app.
  split; [exact Hs|]. split; [apply Hrun|].
  destruct (run_state_at w fuel 0) as (q & Hq).
  destruct (fst (fst (run w fuel 0 (state_at w 0)))); [constructor|].
  rewrite Hq. apply Hcl.
Qed.

(** ** Startup *)

Lemma open_log_startup w :
  open_log (startup_calls w) =
  map (fun c => (channel_path c, os_open w (channel_path c))) channels.
Proof.
  unfold startup_calls, curses_calls. destruct (os_has_colors w); reflexivity.
Qed.

Lemma is_offline_opened w i : is_offline (opened_sensor w i) = Some true.
Proof.
  unfold is_offline. destruct (fd_batt (opened_sensor w i) <? 0)%Z; reflexivity.
Qed.

(** X2.  Startup puts the terminal in its mode and then tries all 48 opens,
    battery, temperature, light for sensor 0 to 15 in this order, whatever
    the earlier ones returned.  Each descriptor field holds what its own
    open returned, every buffer is empty, so every sensor is offline before
    the first poll. *)
Theorem X2_startup_opens_every_channel (w : os) (i : nat) (m : metric) :
  exists sensors calls,
    startup w = Some (sensors, calls) /\
    firstn 6 calls =
      [Initscr; Cbreak; Noecho; Nodelay true; CursSet 0;
       HasColors (os_has_colors w)] /\
    open_log calls =
      map (fun c => (channel_path c, os_open w (channel_path c))) channels /\
    List.length (open_log calls) = 3 * MAX_SENSORS /\
    List.length sensors = MAX_SENSORS /\
    (i < MAX_SENSORS ->
     exists s,
       nth_error sensors i = Some s /\
       fd_of m s = os_open w (dev_path i (type_name m)) /\
       val_of m s = repeat NUL BUF_SIZE /\
       is_offline s = Some true).
Proof.
  exists (opened w), (startup_calls w).
  split; [apply startup_spec|].
  split; [unfold startup_calls, curses_calls; destruct (os_has_colors w); reflexivity|].
  split; [apply open_log_startup|].
  split; [rewrite open_log_startup; reflexivity|].
  split; [reflexivity|].
  intros Hi. exists (opened_sensor w i).
  split; [rewrite <- state_at_zero; apply (state_at_nth w 0 i Hi)|].
  split; [destruct m; reflexivity|].
  split; [destruct m; reflexivity|].
  apply is_offline_opened.
Qed.

Lemma X2_startup_opens_every_channel_witness :
  exists sensors calls s,
    startup demo_os = Some (sensors, calls) /\
    nth_error sensors 3 = Some s /\
    fd_of Temp s = 6%Z /\
    is_offline s = Some true.
Proof.
  destruct (X2_startup_opens_every_channel demo_os 3 Temp)
    as (sensors & calls & H1 & _ & _ & _ & _ & H6).
  destruct H6 as (s & Hs & Hfd & _ & Hoff); [unfold MAX_SENSORS; lia|].
  exists sensors, calls, s. repeat split; assumption.
Defined.

(** ** Colors *)

Lemma flat_map_blind B (p : event -> bool) (sel : event -> list B) t :
  Forall (fun e => p e = true) t ->
  (forall e, p e = true -> sel e = []) ->
  flat_map sel t = [].
Proof.
  intros Ht Hsel. induction Ht as [|e t He _ IH]; [reflexivity|].
  cbn [flat_map]. rewrite (Hsel e He), IH. reflexivity.
Qed.

Lemma loop_calls_impl (P : event -> Prop) t :
  (forall e, loop_call e = true -> P e) ->
  Forall (fun e => loop_call e = true) t -> Forall P t.
Proof. intros H Ht. eapply Forall_impl; [|exact Ht]. exact H. Qed.

Lemma cleanup_calls_Forall (P : event -> Prop) sensors :
  (forall fd, P (Close fd)) -> P Endwin -> Forall P (cleanup_calls sensors).
Proof.
  intros Hc He. unfold cleanup_calls. apply Forall_app.
  split; [|repeat constructor; exact He].
  apply Forall_flat_map, Forall_forall. intros i _. unfold at_index.
  destruct (nth_error sensors i) as [s|]; [|constructor].
  unfold sensor_close_calls, close_calls.
  destruct (fd_batt s >=? 0)%Z, (fd_temp s >=? 0)%Z, (fd_light s >=? 0)%Z;
    repeat constructor; apply Hc.
Qed.

Lemma cycle_loop_calls w k sensors :
  Forall (fun e => loop_call e = true) (cycle_calls w k sensors).
Proof.
  unfold cycle_calls. constructor; [reflexivity|].
  rewrite !Forall_app. split; [|split; [apply frame_loop_calls|repeat constructor]].
  apply Forall_flat_map, Forall_forall. intros s _. apply poll_loop_calls.
Qed.

Lemma frame_known_pairs sensors : Forall known_pairs (frame sensors).
Proof.
  unfold frame. rewrite !Forall_app.
  split; [unfold frame_head; known_pairs_list|].
  split; [|unfold frame_foot; known_pairs_list].
  apply Forall_flat_map, Forall_forall. intros i _. unfold at_index.
  destruct (nth_error sensors i) as [s|]; [|constructor].
  unfold row_calls, values_pair.
  destruct (offline s); known_pairs_list.
Qed.

Lemma pairs_used_incl t :
  Forall known_pairs t -> incl (pairs_used t) [1; 2; 3; 4].
Proof.
  induction 1 as [|e t He _ IH]; [intros x []|].
  unfold pairs_used. cbn [flat_map]. fold (pairs_used t).
  apply incl_app; [|exact IH].
  destruct e; try (intros x []). exact He.
Qed.

Lemma poll_known_pairs w k s : Forall known_pairs (poll_calls w k s).
Proof.
  unfold poll_calls, read_calls.
  destruct (fd_batt s <? 0)%Z, (fd_temp s <? 0)%Z, (fd_light s <? 0)%Z;
    repeat constructor.
Qed.

Lemma run_known_pairs w fuel : forall k sensors,
  Forall known_pairs (snd (run w fuel k sensors)).
Proof.
  induction fuel as [|fuel IH]; intros k sensors; [constructor|].
  cbn [run]. destruct (is_quit (os_getch w k)); [repeat constructor|].
  cbn [snd]. apply Forall_app. split; [|apply IH].
  unfold cycle_calls. constructor; [exact I|].
  rewrite !Forall_app. split; [|split; [apply frame_known_pairs|repeat constructor]].
  apply Forall_flat_map, Forall_forall. intros s _. apply poll_known_pairs.
Qed.

Lemma pairs_used_app t1 t2 : pairs_used (t1 ++ t2) = pairs_used t1 ++ pairs_used t2.
Proof. apply flat_map_app. Qed.

Lemma pairs_used_frame sensors :
  List.length sensors = MAX_SENSORS ->
  In 1 (pairs_used (frame sensors)) /\ In 3 (pairs_used (frame sensors)).
Proof.
  intros Hlen. unfold frame. rewrite !pairs_used_app. split.
  - apply in_or_app. left. cbn. auto.
  - apply in_or_app. right. apply in_or_app. left.
    destruct sensors as [|s sensors]; [discriminate|].
    cbn. auto.
Qed.

Lemma start_colors_quiet t :
  Forall (fun e => no_color_setup e = true) t -> start_colors t = 0.
Proof.
  unfold start_colors. induction 1 as [|e t He _ IH]; [reflexivity|].
  cbn [filter]. destruct e; try discriminate; exact IH.
Qed.

Lemma pairs_used_cycle w k sensors rest x :
  In x (pairs_used (frame (map (polled w k) sensors))) ->
  In x (pairs_used (cycle_calls w k sensors ++ rest)).
Proof.
  intros H. rewrite pairs_used_app. apply in_or_app. left.
  unfold cycle_calls.
  match goal with
  | |- In _ (pairs_used (?e :: ?l)) =>
      change (pairs_used (e :: l)) with (pairs_used ([e] ++ l))
  end.
  rewrite !pairs_used_app.
  apply in_or_app; right. apply in_or_app; right. apply in_or_app; left.
  exact H.
Qed.

(** X3.  The only color pairs the program ever switches on are 1 to 4, and
    every frame (the frame of cycle [k], for every [k]) switches on pairs 1
    and 3 and no pair outside 1 to 4.  When the terminal has colors,
    [init_colors] has set up exactly the pairs 1 to 4 during startup (cyan,
    green, yellow, red on black), before the first of them is used; when it
    has none, the program never calls [start_color] or [init_pair], and
    switches the pairs on all the same. *)
Theorem X3_color_pairs (w : os) (fuel : nat) (k : nat) :
  (no_quit_before w (S k) ->
   exists sensors_k before frame_k,
     main w (S k) =
       Some ((Running, sensors_k), before ++ frame_k ++ [Usleep 100000%Z]) /\
     draw_ui sensors_k = Some (tt, frame_k) /\
     In 1 (pairs_used frame_k) /\
     In 3 (pairs_used frame_k) /\
     incl (pairs_used frame_k) [1; 2; 3; 4]) /\
  exists r sensors0 pre rest,
    main w fuel = Some (r, pre ++ rest) /\
    startup w = Some (sensors0, pre) /\
    pairs_used pre = [] /\
    init_pairs rest = [] /\
    start_colors rest = 0 /\
    incl (pairs_used rest) [1; 2; 3; 4] /\
    (0 < fuel -> is_quit (os_getch w 0) = false ->
     In 1 (pairs_used rest) /\ In 3 (pairs_used rest)) /\
    (if os_has_colors w
     then init_pairs pre =
            [(1, COLOR_CYAN, COLOR_BLACK); (2, COLOR_GREEN, COLOR_BLACK);
             (3, COLOR_YELLOW, COLOR_BLACK); (4, COLOR_RED, COLOR_BLACK)] /\
          start_colors pre = 1
     else init_pairs pre = [] /\ start_colors pre = 0).
Proof.
  split.
  { intros Hq.
    destruct (run_last_frame w k 0 (opened w)) as (before & Hb).
    { intros j Hj. apply Hq. lia. }
    pose proof (run_running w (S k) 0 (fun j Hj => Hq j (proj2 Hj))) as Hst.
    rewrite state_at_zero in Hst. cbn [Nat.add] in Hst.
    rewrite Hst in Hb. cbn [fst snd] in Hb.
    exists (state_at w (S k)), (startup_calls w ++ before),
      (frame (state_at w (S k))).
    split; [rewrite (main_running w (S k) Hq), Hb, <- app_assoc; reflexivity|].
    split; [apply draw_ui_spec, sane_all_state_at|].
    destruct (pairs_used_frame (state_at w (S k))) as [H1 H3];
      [apply sane_all_state_at|].
    split; [exact H1|]. split; [exact H3|].
    apply pairs_used_incl, frame_known_pairs. }
  rewrite main_spec, startup_spec. unfold main_run.
  set (r := run w fuel 0 (opened w)).
  set (tail := match fst (fst r) with
               | Stopped => cleanup_calls (snd (fst r))
               | Running => []
               end).
  assert (Hquiet : Forall (fun e => no_color_setup e = true) (snd r ++ tail)).
  { apply Forall_app. split.
    - apply (loop_calls_impl (fun e => no_color_setup e = true));
        [|apply run_loop_calls].
      intros [] He; try discriminate; reflexivity.
    - unfold tail. destruct (fst (fst r)); [constructor|].
      apply cleanup_calls_Forall; reflexivity. }
  assert (Hknown : Forall known_pairs (snd r ++ tail)).
  { apply Forall_app. split; [apply run_known_pairs|].
    unfold tail. destruct (fst (fst r)); [constructor|].
    apply cleanup_calls_Forall; [intros fd|]; exact I. }
  exists (fst r), (opened w), (startup_calls w), (snd r ++ tail).
  split; [reflexivity|]. split; [reflexivity|].
  split; [unfold startup_calls, curses_calls; destruct (os_has_colors w); reflexivity|].
  split.
  { apply (flat_map_blind _ no_color_setup _ _ Hquiet).
    intros [] He; try discriminate; reflexivity. }
  split; [apply start_colors_quiet, Hquiet|].
  split; [apply pairs_used_incl, Hknown|].
  split.
  { intros Hf Hq. destruct fuel as [|fuel]; [lia|].
    unfold r. cbn [run]. rewrite Hq. cbn [snd].
    destruct (pairs_used_frame (map (polled w 0) (opened w))) as [H1 H3];
      [reflexivity|].
    rewrite <- app_assoc. split; apply pairs_used_cycle; assumption. }
  unfold startup_calls, curses_calls. destruct (os_has_colors w); split; reflexivity.
Qed.

Lemma X3_color_pairs_witness :
  (exists sensors_k before frame_k,
     main battery_os 2 =
       Some ((Running, sensors_k), before ++ frame_k ++ [Usleep 100000%Z]) /\
     draw_ui sensors_k = Some (tt, frame_k) /\
     In 1 (pairs_used frame_k) /\
     In 3 (pairs_used frame_k) /\
     incl (pairs_used frame_k) [1; 2; 3; 4]) /\
  exists r sensors0 pre rest,
    main battery_os 2 = Some (r, pre ++ rest) /\
    startup battery_os = Some (sensors0, pre) /\
    init_pairs (pre ++ rest) = [] /\
    In 1 (pairs_used rest) /\ In 3 (pairs_used rest).
Proof.
  destruct (X3_color_pairs battery_os 2 1)
    as (Hframe & r & s0 & pre & rest & H1 & H2 & _ & H4 & _ & _ & H7 & H8).
  split.
  - apply Hframe. intros j Hj.
    destruct j as [|[|j]]; [reflexivity|reflexivity|lia].
  - exists r, s0, pre, rest.
    split; [exact H1|]. split; [exact H2|].
    split.
    + unfold init_pairs in *. rewrite flat_map_app, H4.
      cbn in H8. destruct H8 as [H8 _]. unfold init_pairs in H8. rewrite H8.
      reflexivity.
    + apply H7; [lia|reflexivity].
Defined.

(** ** Attributes *)

Lemma styled_app t1 : forall on t2,
  styled on (t1 ++ t2) =
  (fst (styled on t1) ++ fst (styled (snd (styled on t1)) t2),
   snd (styled (snd (styled on t1)) t2)).
Proof.
  induction t1 as [|e t1 IH]; intros on t2.
  - cbn. destruct (styled on t2). reflexivity.
  - destruct e; cbn [app styled fst snd]; rewrite ?IH; reflexivity.
Qed.

Lemma styled_row i s :
  styled [] (row_calls i s) = (row_styled i s, []).
Proof.
  unfold row_calls, row_styled, values_pair. destruct (offline s); reflexivity.
Qed.

Lemma styled_rows sensors l :
  styled [] (flat_map (at_index row_calls sensors) l) =
  (flat_map (at_index row_styled sensors) l, []).
Proof.
  induction l as [|i l IH]; [reflexivity|].
  cbn [flat_map]. rewrite styled_app.
  change (at_index row_calls sensors i)
    with (match nth_error sensors i with
          | Some s => row_calls i s
          | None => []
          end).
  change (at_index row_styled sensors i)
    with (match nth_error sensors i with
          | Some s => row_styled i s
          | None => []
          end).
  destruct (nth_error sensors i) as [s|].
  - rewrite styled_row. cbn [fst snd]. rewrite IH. reflexivity.
  - cbn [styled fst snd app]. rewrite IH. reflexivity.
Qed.

(** X4.  A frame that starts with no attribute in force prints its title
    in bold with pair 1, the disclaimer dim, the column header underlined,
    every label with pair 3, the values of an offline sensor with pair 4 and
    those of an online one with pair 2, and the footer plain; every
    [attron] is undone by its [attroff], so no attribute is left on for the
    next frame. *)
Theorem X4_frame_attributes (sensors : list sensor_data) :
  sane_all sensors ->
  exists shown_frame,
    draw_ui sensors = Some (tt, shown_frame) /\
    styled [] shown_frame =
      ([([COLOR_PAIR 1; A_BOLD],
         (0, 2, "Lunix:TNG Sensor Monitor (Press 'q' to quit)"%string));
        ([A_DIM],
         (1, 2, "[This version uses Polling - It does not support Wait-Wake]"%string));
        ([A_UNDERLINE], (3, 2, HEADER))]
       ++ flat_map (fun p => [([COLOR_PAIR 3], (5 + fst p, 2, id_label (fst p)));
                              ([COLOR_PAIR (values_pair (snd p))],
                               (5 + fst p, 12, values_text (snd p)))])
            (combine (seq 0 MAX_SENSORS) sensors)
       ++ [([], (22, 2, "Status: Active Polling (O_NONBLOCK)..."%string))],
       []) /\
    Forall (fun s =>
              (is_offline s = Some true /\ values_pair s = 4) \/
              (is_offline s = Some false /\ values_pair s = 2)) sensors.
Proof.
  intros H. exists (frame sensors).
  split; [apply draw_ui_spec, H|]. split.
  - unfold frame. rewrite styled_app.
    change (styled [] frame_head)
      with ([([COLOR_PAIR 1; A_BOLD],
              (0, 2, "Lunix:TNG Sensor Monitor (Press 'q' to quit)"%string));
             ([A_DIM],
              (1, 2, "[This version uses Polling - It does not support Wait-Wake]"%string));
             ([A_UNDERLINE], (3, 2, HEADER))], @nil attr).
    cbn [fst snd]. rewrite styled_app, styled_rows. cbn [fst snd].
    destruct H as [Hlen _].
    pose proof (at_index_mapi _ row_styled sensors []) as E.
    cbn [app List.length] in E. rewrite Hlen in E.
    rewrite E, mapi_combine, Hlen. reflexivity.
  - destruct H as [_ Hs]. eapply Forall_impl; [|exact Hs].
    intros s (Hb & _). rewrite (is_offline_spec s Hb). unfold values_pair.
    destruct (offline s); auto.
Qed.

Lemma X4_frame_attributes_witness :
  exists shown_frame,
    draw_ui (opened demo_os) = Some (tt, shown_frame) /\
    snd (styled [] shown_frame) = [] /\
    List.length (fst (styled [] shown_frame)) = 36.
Proof.
  destruct (X4_frame_attributes (opened demo_os)) as (f & H1 & H2 & _).
  - apply sane_all_opened.
  - exists f. split; [exact H1|]. rewrite H2. split; reflexivity.
Defined.

(** ** One cycle after another *)

Lemma reads_app t1 t2 : reads (t1 ++ t2) = reads t1 ++ reads t2.
Proof.
  induction t1 as [|e t1 IH]; [reflexivity|].
  destruct e; cbn [app reads]; rewrite IH; reflexivity.
Qed.

Lemma reads_frame sensors : reads (frame sensors) = [].
Proof.
  unfold frame. rewrite !reads_app.
  assert (H : forall l, reads (flat_map (at_index row_calls sensors) l) = []).
  { induction l as [|i l IH]; [reflexivity|].
    cbn [flat_map]. rewrite reads_app, IH. unfold at_index.
    destruct (nth_error sensors i); reflexivity. }
  rewrite H. reflexivity.
Qed.

Lemma no_quit_before_le w n k : no_quit_before w n -> k <= n -> no_quit_before w k.
Proof. intros H Hk j Hj. apply H. lia. Qed.

(** X5.  While no quit key arrives, the calls of the program after startup
    are one block per cycle, and the block of cycle [k] is: the [getch],
    one [read] of [BUF_SIZE - 1] bytes on every open descriptor in the order
    of opening (none on a negative one), the frame, the sleep of 100000
    microseconds.  The frame has no read in it and shows the state right
    after the reads of its own cycle. *)
Theorem X5_cycle_order (w : os) (n : nat) :
  no_quit_before w n ->
  exists sensors sensors0 pre cycles,
    main w n = Some ((Running, sensors), pre ++ List.concat cycles) /\
    startup w = Some (sensors0, pre) /\
    List.length cycles = n /\
    forall k, k < n ->
      exists sensors_k calls_k frame_k,
        nth_error cycles k =
          Some (Getch (os_getch w k) :: cycle_reads w k
                  ++ frame_k ++ [Usleep 100000%Z]) /\
        main w (S k) = Some ((Running, sensors_k), calls_k) /\
        draw_ui sensors_k = Some (tt, frame_k) /\
        reads frame_k = [] /\
        List.length (cycle_reads w k) = List.length (open_ones (opened_fds w)).
Proof.
  intros H.
  exists (state_at w n), (opened w), (startup_calls w),
    (map (fun j => cycle_calls w j (state_at w j)) (seq 0 n)).
  split; [rewrite <- flat_map_concat_map; apply main_running_cycles, H|].
  split; [apply startup_spec|].
  split; [rewrite length_map, length_seq; reflexivity|].
  intros k Hk.
  exists (state_at w (S k)),
    (startup_calls w ++ snd (run w (S k) 0 (opened w))),
    (frame (state_at w (S k))).
  split.
  { rewrite nth_error_map, (nth_error_nth' _ 0) by (rewrite length_seq; exact Hk).
    rewrite seq_nth by exact Hk. cbn [option_map Nat.add].
    rewrite cycle_calls_state_at. reflexivity. }
  split; [apply main_running, (no_quit_before_le w n (S k) H Hk)|].
  split; [apply draw_ui_spec, sane_all_state_at|].
  split; [apply reads_frame|].
  unfold cycle_reads. apply length_map.
Qed.

Lemma X5_cycle_order_witness :
  exists sensors sensors0 pre cycles,
    main battery_os 2 = Some ((Running, sensors), pre ++ List.concat cycles) /\
    startup battery_os = Some (sensors0, pre) /\
    List.length cycles = 2.
Proof.
  destruct (X5_cycle_order battery_os 2)
    as (s & s0 & pre & cycles & H1 & H2 & H3 & _).
  - intros j Hj. destruct j as [|[|j]]; [reflexivity|reflexivity|lia].
  - exists s, s0, pre, cycles. repeat split; assumption.
Defined.

(** ** What a read leaves behind *)

(** X6.  A read that delivers bytes rewrites all [BUF_SIZE] bytes of the
    buffer: the new string followed by NULs only.  The result depends on
    the bytes delivered alone, not on what the buffer held before (a longer
    old value leaves no tail), nor on the descriptor, nor on what the stack
    held where [temp_buf] is put. *)
Theorem X6_read_overwrites_buffer (env1 env2 : read_env) (fd1 fd2 : Z)
  (old1 old2 : list ascii) :
  List.length old1 = BUF_SIZE -> List.length old2 = BUF_SIZE ->
  (0 <= fd1)%Z -> (0 <= fd2)%Z ->
  answer env1 = answer env2 ->
  (0 < read_result (answer env1))%Z ->
  exists value calls1 calls2,
    try_read env1 fd1 old1 = Some ((1%Z, value), calls1) /\
    try_read env2 fd2 old2 = Some ((1%Z, value), calls2) /\
    value =
      spec_cached (delivered (answer env1))
      ++ repeat NUL (BUF_SIZE - List.length (spec_cached (delivered (answer env1)))) /\
    List.length value = BUF_SIZE.
Proof.
  intros H1 H2 Hf1 Hf2 Ha Hpos.
  exists (stored (delivered (answer env1))). eexists _, _.
  split; [apply try_read_data; assumption|].
  split.
  { rewrite Ha. apply try_read_data; [assumption|assumption|].
    rewrite <- Ha. exact Hpos. }
  split; [unfold stored; rewrite line_text_spec; reflexivity|].
  apply stored_length, delivered_length.
Qed.

Lemma X6_read_overwrites_buffer_witness :
  exists value calls1 calls2,
    try_read (os_read demo_os 0 5) 5 (buffer_of "0123456789") =
      Some ((1%Z, value), calls1) /\
    try_read {| garbage := fun _ => "?"%char; answer := RData raw_3_7_stray |}
      9 (buffer_of "") = Some ((1%Z, value), calls2) /\
    value = buffer_of "3.7".
Proof.
  destruct (X6_read_overwrites_buffer (os_read demo_os 0 5)
              {| garbage := fun _ => "?"%char; answer := RData raw_3_7_stray |}
              5 9 (buffer_of "0123456789") (buffer_of ""))
    as (v & c1 & c2 & H1 & H2 & H3 & _).
  - reflexivity.
  - reflexivity.
  - lia.
  - lia.
  - reflexivity.
  - reflexivity.
  - exists v, c1, c2. split; [exact H1|]. split; [exact H2|].
    rewrite H3. reflexivity.
Defined.

(** ** Descriptors *)

Lemma frame_on_open_descriptor w sensors :
  Forall (on_open_descriptor w) (frame sensors).
Proof.
  unfold frame. rewrite !Forall_app.
  split; [unfold frame_head; trivial_calls|].
  split; [|unfold frame_foot; trivial_calls].
  apply Forall_flat_map, Forall_forall. intros i _. unfold at_index.
  destruct (nth_error sensors i) as [s|]; [|constructor].
  unfold row_calls. trivial_calls.
Qed.

Lemma open_ones_in fd fds : In fd (open_ones fds) -> (0 <= fd)%Z /\ In fd fds.
Proof.
  unfold open_ones. intros H. apply filter_In in H. destruct H as [Hin Hge].
  split; [|exact Hin]. rewrite Z.geb_leb in Hge. apply Z.leb_le, Hge.
Qed.

Lemma cycle_on_open_descriptor w k :
  Forall (on_open_descriptor w) (cycle_calls w k (state_at w k)).
Proof.
  rewrite cycle_calls_state_at. constructor; [exact I|].
  rewrite !Forall_app.
  split; [|split; [apply frame_on_open_descriptor|trivial_calls]].
  unfold cycle_reads. apply Forall_map, Forall_forall. intros fd Hfd.
  apply open_ones_in in Hfd. destruct Hfd as [Hge Hin].
  cbn. repeat split; try assumption; apply read_result_bounds.
Qed.

Lemma cleanup_on_open_descriptor w k :
  Forall (on_open_descriptor w) (cleanup_calls (state_at w k)).
Proof.
  rewrite cleanup_calls_spec. apply Forall_app. split; [|trivial_calls].
  apply Forall_map, Forall_forall. intros fd Hfd.
  apply open_ones_in in Hfd. exact Hfd.
Qed.

Lemma startup_on_open_descriptor w : Forall (on_open_descriptor w) (startup_calls w).
Proof.
  unfold startup_calls, curses_calls. apply Forall_app. split.
  - destruct (os_has_colors w); trivial_calls.
  - apply Forall_flat_map, Forall_forall. intros i _. unfold open_calls.
    trivial_calls.
Qed.

Lemma main_run_state w fuel :
  exists q, snd (fst (main_run w fuel)) = state_at w q.
Proof.
  unfold main_run. cbn [fst snd]. rewrite <- state_at_zero. apply run_state_at.
Qed.

Lemma open_log_main w fuel :
  open_log (snd (main_run w fuel)) =
  map (fun c => (channel_path c, os_open w (channel_path c))) channels.
Proof.
  unfold main_run. cbn [snd]. unfold open_log. rewrite flat_map_app.
  fold (open_log (startup_calls w)). rewrite open_log_startup.
  rewrite (flat_map_blind _ not_open); [apply app_nil_r| |].
  - apply Forall_app. split.
    + apply (loop_calls_impl (fun e => not_open e = true));
        [|apply run_loop_calls].
      intros [] He; try discriminate; reflexivity.
    + destruct (fst (fst (run w fuel 0 (opened w)))); [constructor|].
      apply cleanup_calls_Forall; reflexivity.
  - intros [] He; try discriminate; reflexivity.
Qed.

(** X7.  Descriptors are fixed at startup.  In a whole run there are the
    48 [open] calls of startup and no other; every descriptor field keeps
    what its open returned; every [read] is on a descriptor that an open
    returned and that is not negative, asks for [BUF_SIZE - 1] bytes and
    gets between -1 and [BUF_SIZE - 1]; every [close] is on such a
    descriptor.  A channel whose open failed is never tried again, never
    read and never closed. *)
Theorem X7_descriptors_fixed_at_startup (w : os) (fuel : nat) (i : nat) (m : metric) :
  exists st sensors calls,
    main w fuel = Some ((st, sensors), calls) /\
    open_log calls =
      map (fun c => (channel_path c, os_open w (channel_path c))) channels /\
    Forall (on_open_descriptor w) calls /\
    (i < MAX_SENSORS ->
     exists s,
       nth_error sensors i = Some s /\
       fd_of m s = os_open w (dev_path i (type_name m))).
Proof.
  rewrite main_spec.
  pose proof (open_log_main w fuel) as Hlog.
  pose proof (main_run_Forall (on_open_descriptor w) w fuel
                (startup_on_open_descriptor w)
                (cycle_on_open_descriptor w)
                (fun _ => I)
                (cleanup_on_open_descriptor w)) as Hall.
  destruct (main_run_state w fuel) as (q & Hq).
  destruct (main_run w fuel) as [[st sensors] calls]. cbn [fst snd] in *.
  exists st, sensors, calls.
  split; [reflexivity|]. split; [exact Hlog|]. split; [exact Hall|].
  intros Hi. subst sensors. exists (sensor_at w q i).
  split; [apply state_at_nth, Hi|]. apply sensor_at_fd.
Qed.

Lemma X7_descriptors_fixed_at_startup_witness :
  exists st sensors calls s,
    main demo_os 4 = Some ((st, sensors), calls) /\
    Forall (on_open_descriptor demo_os) calls /\
    nth_error sensors 3 = Some s /\
    fd_of Batt s = 5%Z.
Proof.
  destruct (X7_descriptors_fixed_at_startup demo_os 4 3 Batt)
    as (st & sensors & calls & H1 & _ & H3 & H4).
  destruct H4 as (s & Hs & Hfd); [unfold MAX_SENSORS; lia|].
  exists st, sensors, calls, s. repeat split; assumption.
Defined.

(** ** Channels that could not be opened *)

Lemma unopened_value w n i m :
  (channel_fd w i m < 0)%Z -> val_of m (sensor_at w n i) = repeat NUL BUF_SIZE.
Proof.
  intros H. induction n as [|n IH]; [destruct m; reflexivity|].
  rewrite sensor_at_val, next_value_failed; [exact IH|left; exact H].
Qed.

Lemma sane_sensor_at w n i : i < MAX_SENSORS -> sane (sensor_at w n i).
Proof.
  intros Hi. destruct (sane_all_state_at w n) as [_ H].
  rewrite Forall_forall in H. apply H.
  eapply nth_error_In, state_at_nth, Hi.
Qed.

(** X8.  A sensor whose battery device could not be opened is offline in
    every state of the run and its row is OFFLINE three times, whatever
    its temperature and light devices deliver. *)
Theorem X8_unopened_battery_stays_offline (w : os) (fuel i : nat) :
  i < MAX_SENSORS ->
  (os_open w (dev_path i "batt") < 0)%Z ->
  exists st sensors calls s,
    main w fuel = Some ((st, sensors), calls) /\
    nth_error sensors i = Some s /\
    is_offline s = Some true /\
    draw_values (5 + i) s =
      Some (tt, [Attron [COLOR_PAIR 4];
                 Mvprintw (5 + i) 12 "OFFLINE       OFFLINE       OFFLINE     ";
                 Attroff [COLOR_PAIR 4]]).
Proof.
  intros Hi Hfd. rewrite main_spec.
  destruct (main_run_state w fuel) as (q & Hq).
  destruct (main_run w fuel) as [[st sensors] calls]. cbn [fst snd] in *.
  subst sensors. exists st, (state_at w q), calls, (sensor_at w q i).
  split; [reflexivity|]. split; [apply state_at_nth, Hi|].
  pose proof (sane_sensor_at w q i Hi) as Hs.
  pose proof (offline_unopened w q i Hfd) as Hoff.
  split.
  - rewrite (is_offline_spec _ (proj1 Hs)), Hoff. reflexivity.
  - rewrite (draw_values_spec _ _ Hs). unfold values_pair, values_text.
    rewrite Hoff. reflexivity.
Qed.

Lemma X8_unopened_battery_stays_offline_witness :
  exists st sensors calls s,
    main demo_os 4 = Some ((st, sensors), calls) /\
    nth_error sensors 7 = Some s /\
    is_offline s = Some true.
Proof.
  destruct (X8_unopened_battery_stays_offline demo_os 4 7)
    as (st & sensors & calls & s & H1 & H2 & H3 & _).
  - unfold MAX_SENSORS. lia.
  - reflexivity.
  - exists st, sensors, calls, s. repeat split; assumption.
Defined.

(** X9.  The buffer of a channel whose device could not be opened is
    never written: in every state of the run it is all NUL and holds the
    empty string, which a value field of the table shows as twelve spaces. *)
Theorem X9_unopened_channel_stays_empty (w : os) (fuel i : nat) (m : metric) :
  i < MAX_SENSORS ->
  (os_open w (dev_path i (type_name m)) < 0)%Z ->
  exists st sensors calls s,
    main w fuel = Some ((st, sensors), calls) /\
    nth_error sensors i = Some s /\
    val_of m s = repeat NUL BUF_SIZE /\
    c_str (val_of m s) = Some ""%string /\
    fmt_left VALUE_WIDTH "" = "            "%string.
Proof.
  intros Hi Hfd. rewrite main_spec.
  destruct (main_run_state w fuel) as (q & Hq).
  destruct (main_run w fuel) as [[st sensors] calls]. cbn [fst snd] in *.
  subst sensors. exists st, (state_at w q), calls, (sensor_at w q i).
  split; [reflexivity|]. split; [apply state_at_nth, Hi|].
  rewrite (unopened_value w q i m Hfd). repeat split.
Qed.

Lemma X9_unopened_channel_stays_empty_witness :
  exists st sensors calls s,
    main demo_os 4 = Some ((st, sensors), calls) /\
    nth_error sensors 3 = Some s /\
    val_of Light s = repeat NUL BUF_SIZE.
Proof.
  destruct (X9_unopened_channel_stays_empty demo_os 4 3 Light)
    as (st & sensors & calls & s & H1 & H2 & H3 & _).
  - unfold MAX_SENSORS. lia.
  - reflexivity.
  - exists st, sensors, calls, s. repeat split; assumption.
Defined.

(** ** Idle cycles *)

Lemma polled_idle w k n i :
  i < MAX_SENSORS -> idle_cycle w k ->
  polled w k (sensor_at w n i) = sensor_at w n i.
Proof.
  intros Hi Hidle.
  assert (H : forall m,
            next_value (os_read w k (fd_of m (sensor_at w n i)))
              (fd_of m (sensor_at w n i)) (val_of m (sensor_at w n i)) =
            val_of m (sensor_at w n i)).
  { intros m. apply next_value_failed. rewrite sensor_at_fd.
    destruct (Z.lt_ge_cases (channel_fd w i m) 0) as [Hlt|Hge]; [left; exact Hlt|].
    right. apply Hidle; [apply channel_fd_in, Hi|exact Hge]. }
  pose proof (H Batt) as Hb. pose proof (H Temp) as Ht. pose proof (H Light) as Hl.
  cbn [fd_of val_of] in Hb, Ht, Hl.
  unfold polled. rewrite Hb, Ht, Hl. destruct (sensor_at w n i). reflexivity.
Qed.

Lemma state_at_idle w k : idle_cycle w k -> state_at w (S k) = state_at w k.
Proof.
  intros H. rewrite state_at_succ. unfold state_at. rewrite map_map.
  apply map_ext_in. intros i Hi. apply in_seq in Hi.
  apply polled_idle; [lia|exact H].
Qed.

Lemma cycles_succ w k :
  flat_map (fun j => cycle_calls w j (state_at w j)) (seq 0 (S k)) =
  flat_map (fun j => cycle_calls w j (state_at w j)) (seq 0 k)
  ++ Getch (os_getch w k) :: cycle_reads w k
  ++ frame (state_at w (S k)) ++ [Usleep 100000%Z].
Proof.
  rewrite seq_S, flat_map_app. cbn [Nat.add flat_map].
  rewrite cycle_calls_state_at, app_nil_r. reflexivity.
Qed.

(** X10.  A cycle in which no open descriptor has anything to deliver
    changes nothing: all reads are still made, the state stays as it was,
    and the frame drawn is, call for call, the frame of the cycle before. *)
Theorem X10_idle_cycle_redraws_same_frame (w : os) (k : nat) :
  no_quit_before w (S (S k)) -> idle_cycle w (S k) ->
  exists sensors before shown_frame,
    main w (S k) =
      Some ((Running, sensors), before ++ shown_frame ++ [Usleep 100000%Z]) /\
    draw_ui sensors = Some (tt, shown_frame) /\
    main w (S (S k)) =
      Some ((Running, sensors),
            (before ++ shown_frame ++ [Usleep 100000%Z])
            ++ Getch (os_getch w (S k)) :: cycle_reads w (S k)
            ++ shown_frame ++ [Usleep 100000%Z]).
Proof.
  intros Hq Hidle.
  pose proof (no_quit_before_le w (S (S k)) (S k) Hq ltac:(lia)) as Hq1.
  exists (state_at w (S k)),
    (startup_calls w
     ++ flat_map (fun j => cycle_calls w j (state_at w j)) (seq 0 k)
     ++ Getch (os_getch w k) :: cycle_reads w k),
    (frame (state_at w (S k))).
  assert (E1 : main w (S k) =
               Some ((Running, state_at w (S k)),
                     (startup_calls w
                      ++ flat_map (fun j => cycle_calls w j (state_at w j)) (seq 0 k)
                      ++ Getch (os_getch w k) :: cycle_reads w k)
                     ++ frame (state_at w (S k)) ++ [Usleep 100000%Z])).
  { rewrite (main_running_cycles w (S k) Hq1), cycles_succ.
    rewrite <- !app_assoc. reflexivity. }
  split; [exact E1|].
  split; [apply draw_ui_spec, sane_all_state_at|].
  rewrite (main_running_cycles w (S (S k)) Hq), (cycles_succ w (S k)), (cycles_succ w k).
  rewrite (state_at_idle w (S k) Hidle).
  repeat (rewrite <- app_assoc || rewrite <- app_comm_cons). reflexivity.
Qed.

Lemma X10_idle_cycle_redraws_same_frame_witness :
  cycle_reads stalled_os 1 = [Read 3 31 0; Read 4 31 (-1)] /\
  exists sensors before shown_frame,
    main stalled_os 1 =
      Some ((Running, sensors), before ++ shown_frame ++ [Usleep 100000%Z]) /\
    draw_ui sensors = Some (tt, shown_frame) /\
    option_map (fun s => c_str (val_batt s)) (nth_error sensors 0) =
      Some (Some "3.7"%string) /\
    main stalled_os 2 =
      Some ((Running, sensors),
            (before ++ shown_frame ++ [Usleep 100000%Z])
            ++ Getch (os_getch stalled_os 1) :: cycle_reads stalled_os 1
            ++ shown_frame ++ [Usleep 100000%Z]).
Proof.
  split; [reflexivity|].
  destruct (X10_idle_cycle_redraws_same_frame stalled_os 0)
    as (s & b & f & H1 & H2 & H3).
  - intros j _. reflexivity.
  - intros fd _ _. cbn. destruct (fd =? 3)%Z; cbn; lia.
  - exists s, b, f. split; [exact H1|]. split; [exact H2|].
    split; [|exact H3].
    pose proof (main_spec stalled_os 1) as E. rewrite H1 in E.
    inversion E as [[Es Et]]. reflexivity.
Defined.

(** ** A channel and its own device *)

Lemma next_value_ext env1 env2 fd b :
  ((0 <= fd)%Z -> answer env1 = answer env2) ->
  next_value env1 fd b = next_value env2 fd b.
Proof.
  intros H. unfold next_value.
  destruct (Z.ltb_spec fd 0); [reflexivity|]. rewrite H by assumption.
  reflexivity.
Qed.

Lemma own_reads_value w1 w2 i m n :
  channel_fd w1 i m = channel_fd w2 i m ->
  ((0 <= channel_fd w1 i m)%Z ->
   forall k, k < n ->
     answer (os_read w1 k (channel_fd w1 i m)) =
     answer (os_read w2 k (channel_fd w1 i m))) ->
  val_of m (sensor_at w1 n i) = val_of m (sensor_at w2 n i).
Proof.
  intros Hfd. induction n as [|n IH]; intros H; [destruct m; reflexivity|].
  rewrite !sensor_at_val, <- Hfd, IH by (intros Hge k Hk; apply H; [exact Hge|lia]).
  apply next_value_ext. intros Hge. apply H; [exact Hge|lia].
Qed.

(** X11.  What a buffer holds after [n] cycles depends only on what the
    open of its own device returned and, when that is not negative, on what
    the reads of that descriptor delivered: two systems that agree on these
    give the same buffer, however the other devices, the keys pressed, the
    colors and the stack contents differ. *)
Theorem X11_channel_depends_on_own_device (w1 w2 : os) (i : nat) (m : metric)
  (n : nat) :
  i < MAX_SENSORS -> no_quit_before w1 n -> no_quit_before w2 n ->
  os_open w1 (dev_path i (type_name m)) = os_open w2 (dev_path i (type_name m)) ->
  ((0 <= os_open w1 (dev_path i (type_name m)))%Z ->
   forall k, k < n ->
     answer (os_read w1 k (os_open w1 (dev_path i (type_name m)))) =
     answer (os_read w2 k (os_open w1 (dev_path i (type_name m))))) ->
  exists sensors1 sensors2 calls1 calls2 s1 s2,
    main w1 n = Some ((Running, sensors1), calls1) /\
    main w2 n = Some ((Running, sensors2), calls2) /\
    nth_error sensors1 i = Some s1 /\
    nth_error sensors2 i = Some s2 /\
    fd_of m s1 = fd_of m s2 /\
    val_of m s1 = val_of m s2.
Proof.
  intros Hi Hq1 Hq2 Hfd Hreads.
  eexists _, _, _, _, _, _.
  split; [apply (main_running w1 n Hq1)|].
  split; [apply (main_running w2 n Hq2)|].
  split; [apply state_at_nth, Hi|].
  split; [apply state_at_nth, Hi|].
  split; [rewrite !sensor_at_fd; exact Hfd|].
  apply own_reads_value; assumption.
Qed.

Lemma X11_channel_depends_on_own_device_witness :
  exists sensors1 sensors2 calls1 calls2 s1 s2,
    main demo_os 1 = Some ((Running, sensors1), calls1) /\
    main other_demo_os 1 = Some ((Running, sensors2), calls2) /\
    nth_error sensors1 3 = Some s1 /\
    nth_error sensors2 3 = Some s2 /\
    val_of Batt s1 = val_of Batt s2.
Proof.
  destruct (X11_channel_depends_on_own_device demo_os other_demo_os 3 Batt 1)
    as (a & b & c & d & s1 & s2 & H1 & H2 & H3 & H4 & _ & H6).
  - unfold MAX_SENSORS. lia.
  - intros j Hj. assert (j = 0) as -> by lia. reflexivity.
  - intros j _. reflexivity.
  - reflexivity.
  - intros _ k _. reflexivity.
  - exists a, b, c, d, s1, s2. repeat split; assumption.
Defined.

(** ** The last reading *)

Lemma reading_next_value w k fd t b :
  reading w k fd = Some t ->
  next_value (os_read w k fd) fd b = stored (delivered (answer (os_read w k fd))) /\
  t = line_text (delivered (answer (os_read w k fd))).
Proof.
  unfold reading, next_value. destruct (fd <? 0)%Z; [discriminate|].
  destruct (read_result (answer (os_read w k fd)) >? 0)%Z; [|discriminate].
  intros H. inversion H. auto.
Qed.

Lemma reading_none_value w k fd b :
  reading w k fd = None -> next_value (os_read w k fd) fd b = b.
Proof. intros H. rewrite next_value_reading, H. reflexivity. Qed.

Lemma last_reading_value w i m k t : forall n,
  reading w k (channel_fd w i m) = Some t ->
  (forall j, k < j < S k + n -> reading w j (channel_fd w i m) = None) ->
  c_chars (val_of m (sensor_at w (S k + n) i)) = Some t.
Proof.
  induction n as [|n IH]; intros Hk Hlater.
  - rewrite Nat.add_0_r, sensor_at_val.
    destruct (reading_next_value w k _ t (val_of m (sensor_at w k i)) Hk)
      as [-> ->].
    apply c_chars_stored, delivered_length.
  - rewrite Nat.add_succ_r, sensor_at_val, reading_none_value
      by (apply Hlater; lia).
    apply IH; [exact Hk|]. intros j Hj. apply Hlater. lia.
Qed.

(** X12.  The string of a buffer is the one stored by the last poll of its
    channel that returned 1: polls that return 0 in between leave it, and an
    earlier value is gone. *)
Theorem X12_last_reading_wins (w : os) (i : nat) (m : metric) (k n : nat)
  (t : list ascii) :
  i < MAX_SENSORS -> k < n -> no_quit_before w n ->
  reading w k (os_open w (dev_path i (type_name m))) = Some t ->
  (forall j, k < j < n ->
     reading w j (os_open w (dev_path i (type_name m))) = None) ->
  exists sensors calls s,
    main w n = Some ((Running, sensors), calls) /\
    nth_error sensors i = Some s /\
    c_chars (val_of m s) = Some t /\
    c_str (val_of m s) = Some (string_of_list_ascii t).
Proof.
  intros Hi Hkn Hq Hk Hlater.
  exists (state_at w n), (startup_calls w ++ snd (run w n 0 (opened w))),
    (sensor_at w n i).
  split; [apply main_running, Hq|].
  split; [apply state_at_nth, Hi|].
  assert (Hc : c_chars (val_of m (sensor_at w n i)) = Some t).
  { replace n with (S k + (n - S k)) by lia.
    apply last_reading_value; [exact Hk|].
    intros j Hj. apply Hlater. lia. }
  split; [exact Hc|]. unfold c_str. rewrite Hc. reflexivity.
Qed.

Lemma X12_last_reading_wins_witness :
  exists sensors calls s,
    main demo_os 1 = Some ((Running, sensors), calls) /\
    nth_error sensors 3 = Some s /\
    c_str (val_of Batt s) = Some "3.7"%string.
Proof.
  destruct (X12_last_reading_wins demo_os 3 Batt 0 1 (list_ascii_of_string "3.7"))
    as (sensors & calls & s & H1 & H2 & _ & H4).
  - unfold MAX_SENSORS. lia.
  - lia.
  - intros j Hj. assert (j = 0) as -> by lia. reflexivity.
  - reflexivity.
  - intros j Hj. lia.
  - exists sensors, calls, s. repeat split; assumption.
Defined.
